(** * Ticket endpoints of the open-event-server API (app/api/tickets.py)

    A shallow embedding of the schema validators, the list query, and the
    request hooks of the ticket resource, with the properties its
    specification states about them.

    Python dictionaries are finite maps with string keys, Python values are
    a small tagged union, exceptions are the error side of a result type,
    and code that mutates a dictionary it was handed threads that
    dictionary as state. *)

From Stdlib Require Import ZArith Floats.SpecFloat DecimalString.
From stdpp Require Import base decidable option list numbers strings gmap.

Local Open Scope string_scope.
Local Open Scope Z_scope.

(** ** Python values *)

Module Py.

(** The values that occur in a ticket payload, in the view arguments of a
    route, and in the columns of the tables.  A datetime is its wall-clock
    time, counted on the integers, and the offset of that time from UTC
    when it is aware of its time zone; a naive datetime has none. *)
Inductive value :=
| VNone
| VBool (b : bool)
| VInt (n : Z)
| VFloat (f : spec_float)
| VStr (s : string)
| VDateTime (wall : Z) (utcoffset : option Z).

#[global] Instance spec_float_eq_dec : EqDecision spec_float.
Proof. solve_decision. Defined.

#[global] Instance value_eq_dec : EqDecision value.
Proof. solve_decision. Defined.

(** [bool(v)]: what an [if v:] tests. *)
Definition truthy (v : value) : bool :=
  match v with
  | VNone => false
  | VBool b => b
  | VInt n => negb (n =? 0)
  | VFloat (S754_zero _) => false
  | VFloat _ => true
  | VStr s => negb (String.eqb s EmptyString)
  | VDateTime _ _ => true
  end.

(** The text of an exception: a format template and the values
    [str.format] fills into it. *)
Record detail := Format { template : string; args : list value }.

(** The exceptions the module raises itself (the first two) and the ones
    the interpreter and the libraries raise under it. *)
Inductive exn :=
| ObjectNotFound (parameter : string) (d : detail)
| UnprocessableEntity (pointer : string) (d : detail)
| ValidationError (message : string)
| KeyError (key : string)
| TypeError
| AttributeError (name : string)
| NoResultFound
| MultipleResultsFound.

Inductive result (A : Type) :=
| Ok (a : A)
| Raise (e : exn).
Arguments Ok {A} a.
Arguments Raise {A} e.

#[global] Instance result_ret : MRet result := @Ok.
#[global] Instance result_bind : MBind result := fun A B f m =>
  match m with
  | Ok a => f a
  | Raise e => Raise e
  end.

(** Code that updates a dictionary in place: the dictionary is the state,
    and it keeps the updates made before an exception. *)
Definition M (S A : Type) : Type := S -> result A * S.

#[global] Instance M_ret {S} : MRet (M S) := fun A a s => (Ok a, s).
#[global] Instance M_bind {S} : MBind (M S) := fun A B f m s =>
  match m s with
  | (Ok a, s') => f a s'
  | (Raise e, s') => (Raise e, s')
  end.

Definition get {S} : M S S := fun s => (Ok s, s).
Definition put {S} (s : S) : M S unit := fun _ => (Ok tt, s).
Definition lift {S A} (r : result A) : M S A := fun s => (r, s).
Definition raise {S A} (e : exn) : M S A := lift (Raise e).

(** ** Dictionaries *)

(** [k in d] *)
Definition contains {V} (k : string) (d : gmap string V) : bool :=
  bool_decide (is_Some (d !! k)).

(** [d[k]] *)
Definition getitem {V} (d : gmap string V) (k : string) : result V :=
  match d !! k with
  | Some v => Ok v
  | None => Raise (KeyError k)
  end.

(** [d.get(k)] *)
Definition dict_get (d : gmap string value) (k : string) : value :=
  default VNone (d !! k).

(** ** Comparisons *)

(** A float against an integer, compared by value as CPython does. *)
Definition float_compare_int (f : spec_float) (n : Z) : option comparison :=
  match f with
  | S754_nan => None
  | S754_zero _ => Some (0 ?= n)
  | S754_infinity s => Some (if s then Lt else Gt)
  | S754_finite s m e =>
      let v := cond_Zopp s (Zpos m) in
      Some (if 0 <=? e then v * 2 ^ e ?= n else v ?= n * 2 ^ (- e))
  end.

(** An integer, or a boolean taken as the integer it is in Python. *)
Definition as_int (v : value) : Z :=
  match v with
  | VInt n => n
  | VBool b => Z.b2z b
  | _ => 0
  end.

(** The three-way comparison behind [<] and [>=]; [None] is the unordered
    outcome of a NaN, an exception the operands that cannot be ordered.
    Two aware datetimes are ordered by their UTC times, two naive ones by
    their wall-clock times, and a naive one against an aware one is a
    [TypeError]. *)
Definition compare (a b : value) : result (option comparison) :=
  match a, b with
  | (VInt _ | VBool _), (VInt _ | VBool _) => Ok (Some (as_int a ?= as_int b))
  | VDateTime x (Some dx), VDateTime y (Some dy) =>
      Ok (Some (x - dx ?= y - dy))
  | VDateTime x None, VDateTime y None => Ok (Some (x ?= y))
  | VFloat x, VFloat y => Ok (SFcompare x y)
  | VFloat x, (VInt _ | VBool _) => Ok (float_compare_int x (as_int b))
  | (VInt _ | VBool _), VFloat y =>
      Ok (CompOpp <$> float_compare_int y (as_int a))
  | VStr x, VStr y => Ok (Some (String.compare x y))
  | _, _ => Raise TypeError
  end.

(** [a < b] *)
Definition lt (a b : value) : result bool :=
  c ← compare a b;
  mret (match c with Some Lt => true | _ => false end).

(** [a >= b] *)
Definition ge (a b : value) : result bool :=
  c ← compare a b;
  mret (match c with Some (Gt | Eq) => true | _ => false end).

End Py.
Import Py.

(** ** The tables (app.models)

    The mapped classes are declared outside tickets.py; the records below
    hold the columns and relationships that tickets.py reads from them,
    under the names it uses.  A nullable column holds a Python value,
    [VNone] when it is NULL. *)

Module Models.

Record Ticket := {
  id : Z;
  event_id : value;
  quantity : value;
  min_order : value;
  max_order : value;
  sales_starts_at : value;
  sales_ends_at : value;
  (** the ids of the access codes in the [access_codes] collection *)
  access_codes : list Z
}.

Record TicketTag := { tag_id : Z }.

Record AccessCode := { access_code_id : Z }.

(** [Order.identifer] is the column that tickets.py names, spelled as it
    spells it. *)
Record Order := {
  order_id : Z;
  identifer : string;
  order_tickets : list Ticket
}.

Record TicketHolder := {
  holder_id : Z;
  ticket_id : value
}.

(** A row of the association table [ticket_tags_table]. *)
Record ticket_tags_row := {
  tt_ticket_id : Z;
  ticket_tag_id : Z
}.

Record DB := {
  tickets : list Ticket;
  ticket_tags : list TicketTag;
  ticket_tags_table : list ticket_tags_row;
  access_code_rows : list AccessCode;
  orders : list Order;
  ticket_holders : list TicketHolder
}.

(** [Query.one()]: exactly one row, or an exception. *)
Definition one {A} (rows : list A) : result A :=
  match rows with
  | [r] => Ok r
  | [] => Raise NoResultFound
  | _ => Raise MultipleResultsFound
  end.

(** The integer that a value stands for when it is compared with an
    integer column: an integer itself, and the integer that a string
    spells in decimal, as the id of a JSON:API document does.  Any other
    value stands for none. *)
Definition int_of_value (v : value) : option Z :=
  match v with
  | VInt n => Some n
  | VStr s => Z.of_int <$> NilZero.int_of_string s
  | _ => None
  end.

(** [Ticket.query.filter_by(id=v)]: the rows whose id is the integer that
    [v] stands for; a value that stands for no integer selects no row. *)
Definition filter_by_id (v : value) (rows : list Ticket) : list Ticket :=
  match int_of_value v with
  | Some n => filter (fun t => id t = n) rows
  | None => []
  end.

(** A mapped class as the helpers see it: its name, its table, and its
    columns by name ([getattr(model, column_name)]). *)
Record Model (A : Type) := {
  __name__ : string;
  table : DB -> list A;
  column : string -> option (A -> value)
}.
Arguments __name__ {A} _.
Arguments table {A} _ _.
Arguments column {A} _ _.

Definition TicketTagModel : Model TicketTag :=
  {| __name__ := "TicketTag";
     table := ticket_tags;
     column := fun c => if String.eqb c "id"
                        then Some (fun r => VInt (tag_id r)) else None |}.

Definition AccessCodeModel : Model AccessCode :=
  {| __name__ := "AccessCode";
     table := access_code_rows;
     column := fun c => if String.eqb c "id"
                        then Some (fun r => VInt (access_code_id r))
                        else None |}.

Definition OrderModel : Model Order :=
  {| __name__ := "Order";
     table := orders;
     column := fun c =>
       if String.eqb c "id" then Some (fun r => VInt (order_id r))
       else if String.eqb c "identifer" then Some (fun r => VStr (identifer r))
       else None |}.

Definition TicketHolderModel : Model TicketHolder :=
  {| __name__ := "TicketHolder";
     table := ticket_holders;
     column := fun c =>
       if String.eqb c "id" then Some (fun r => VInt (holder_id r))
       else if String.eqb c "ticket_id" then Some ticket_id
       else None |}.

(** Modelled from the spec: [safe_query] (app.api.helpers.db) is not among
    the sources.  It fetches the entity of [model] whose column
    [column_name] holds [v]; a missing referenced entity is an
    [ObjectNotFound] that points at the request parameter
    [parameter_name]. *)
Definition safe_query {A} (db : DB) (model : Model A) (column_name : string)
    (v : value) (parameter_name : string) : result A :=
  match column model column_name with
  | None => Raise (AttributeError column_name)
  | Some col =>
      match filter (fun r => col r = v) (table model db) with
      | r :: _ => Ok r
      | [] => Raise (ObjectNotFound parameter_name
                       (Format "{}: {} not found" [VStr (__name__ model); v]))
      end
  end.

End Models.
Import Models.

(** ** TicketSchema *)

Module TicketSchema.

Definition sales_ends_at_pointer : string := "/data/attributes/sales-ends-at".
Definition max_order_pointer : string := "/data/attributes/max-order".
Definition quantity_pointer : string := "/data/attributes/quantity".

(** [validate_date(self, data, original_data)].  [data] is the
    deserialized payload and is updated in place; [original_data] is the
    request document, of which only the members of ['data'] that hold plain
    values are kept. *)
Definition validate_date (db : DB)
    (original_data : gmap string (gmap string value))
    : M (gmap string value) unit :=
  document ← lift (getitem original_data "data");
  (if contains "id" document then
     ticket_id ← lift (getitem document "id");
     ticket ← lift (one (filter_by_id ticket_id (tickets db)));
     data ← get;
     (if negb (contains "sales_starts_at" data)
      then put (<["sales_starts_at" := sales_starts_at ticket]> data)
      else mret tt);;
     data ← get;
     (if negb (contains "sales_ends_at" data)
      then put (<["sales_ends_at" := sales_ends_at ticket]> data)
      else mret tt)
   else mret tt);;
  data ← get;
  starts ← lift (getitem data "sales_starts_at");
  ends ← lift (getitem data "sales_ends_at");
  late ← lift (ge starts ends);
  if late : bool
  then raise (UnprocessableEntity sales_ends_at_pointer
                (Format "sales-ends-at should be after sales-starts-at" []))
  else mret tt.

(** [validate_quantity(self, data)] *)
Definition validate_quantity (data : gmap string value) : result unit :=
  (if contains "max_order" data && contains "min_order" data then
     max_order ← getitem data "max_order";
     min_order ← getitem data "min_order";
     below ← lt max_order min_order;
     if below : bool
     then Raise (UnprocessableEntity max_order_pointer
                   (Format "max-order should be greater than min-order" []))
     else mret tt
   else mret tt);;
  if contains "quantity" data && contains "min_order" data then
    quantity ← getitem data "quantity";
    min_order ← getitem data "min_order";
    below ← lt quantity min_order;
    if below : bool
    then Raise (UnprocessableEntity quantity_pointer
                  (Format "quantity should be greater than min-order" []))
    else mret tt
  else mret tt.

(** *** Field declarations *)

Inductive field_type := Str | Float | Integer | Boolean | DateTime.

Record Field := {
  type_ : field_type;
  validate : list (value -> result bool);
  allow_none : bool;
  required : bool;
  dump_only : bool
}.

Definition field (t : field_type) : Field :=
  {| type_ := t; validate := []; allow_none := false; required := false;
     dump_only := false |}.

(** [lambda n: n >= 0] *)
Definition non_negative (n : value) : result bool := ge n (VInt 0).

(** The attributes of the schema, in the order the class declares them. *)
Definition fields : list (string * Field) :=
  [ ("id", {| type_ := Str; validate := []; allow_none := false;
              required := false; dump_only := true |});
    ("name", {| type_ := Str; validate := []; allow_none := false;
                required := true; dump_only := false |});
    ("description", {| type_ := Str; validate := []; allow_none := true;
                       required := false; dump_only := false |});
    ("type", {| type_ := Str; validate := []; allow_none := false;
                required := true; dump_only := false |});
    ("price", {| type_ := Float; validate := [non_negative];
                 allow_none := true; required := false; dump_only := false |});
    ("quantity", {| type_ := Integer; validate := [non_negative];
                    allow_none := true; required := false;
                    dump_only := false |});
    ("is_description_visible", field Boolean);
    ("position", {| type_ := Integer; validate := []; allow_none := true;
                    required := false; dump_only := false |});
    ("is_fee_absorbed", field Boolean);
    ("sales_starts_at", {| type_ := DateTime; validate := [];
                           allow_none := false; required := true;
                           dump_only := false |});
    ("sales_ends_at", {| type_ := DateTime; validate := [];
                         allow_none := false; required := true;
                         dump_only := false |});
    ("is_hidden", field Boolean);
    ("min_order", {| type_ := Integer; validate := [non_negative];
                     allow_none := true; required := false;
                     dump_only := false |});
    ("max_order", {| type_ := Integer; validate := [non_negative];
                     allow_none := true; required := false;
                     dump_only := false |}) ].

Definition field_named (name : string) : option Field :=
  snd <$> List.find (fun p => String.eqb (fst p) name) fields.

(** The relationships of the schema, each with the attribute it loads
    into. *)
Definition relationships : list (string * string) :=
  [ ("event", "event"); ("ticket_tags", "tags");
    ("access_codes", "access_codes"); ("attendees", "ticket_holders") ].

(** The keys a deserialized payload can hold: one per declared field or
    relationship. *)
Definition attributes : list string :=
  (fst <$> fields) ++ (snd <$> relationships).

(** *** What marshmallow does with a declaration

    [Field.deserialize] on a value the payload supplies: a null passes
    untouched when the field allows it and is refused otherwise; any other
    value is converted to the field's type and then handed to each
    validator, and a validator that answers [False] refuses it.  The
    conversion itself belongs to marshmallow and is a parameter here. *)

Section Deserialize.

Variable convert : field_type -> value -> result value.

Fixpoint run_validators (vs : list (value -> result bool)) (v : value)
    : result unit :=
  match vs with
  | [] => mret tt
  | validator :: vs' =>
      accepted ← validator v;
      if accepted : bool then run_validators vs' v
      else Raise (ValidationError "Invalid value.")
  end.

Definition deserialize (f : Field) (v : value) : result value :=
  match v with
  | VNone =>
      if allow_none f then mret VNone
      else Raise (ValidationError "Field may not be null.")
  | _ =>
      output ← convert (type_ f) v;
      run_validators (validate f) output;;
      mret output
  end.

End Deserialize.

End TicketSchema.

(** ** The vocabulary of the specification

    What the specification calls a negative value, a zero, the stored
    ticket of an update and the effective value of a field. *)

Module Terms.
Import TicketSchema.

(** A number below zero, and a zero, of either numeric type. *)
Definition negative (v : value) : Prop :=
  match v with
  | VInt n => n < 0
  | VFloat f => SFltb f (S754_zero false) = true
  | _ => False
  end.

Definition zero (v : value) : Prop :=
  match v with
  | VInt n => n = 0
  | VFloat f => SFeqb f (S754_zero false) = true
  | _ => False
  end.

(** [id] is the primary key of the tickets: no two rows share it. *)
Definition primary_key (db : DB) : Prop := NoDup (id <$> tickets db).

(** The stored ticket of a request document: the row whose id the ['id']
    of the document stands for if the document has one (an update), and
    none if it has not (a creation). *)
Definition stored (db : DB) (document : gmap string value)
    (ticket : option Ticket) : Prop :=
  match document !! "id", ticket with
  | None, None => True
  | Some v, Some t => t ∈ tickets db /\ int_of_value v = Some (id t)
  | _, _ => False
  end.

(** The UTC time of an aware datetime, the wall-clock time of a naive
    one. *)
Definition instant (wall : Z) (utcoffset : option Z) : Z :=
  wall - default 0 utcoffset.

(** The value a field takes effect with: the payload's own when it has
    one, the stored ticket's otherwise. *)
Definition effective (stored : option Ticket) (col : Ticket -> value)
    (key : string) (data : gmap string value) : option value :=
  match data !! key with
  | Some v => Some v
  | None => col <$> stored
  end.

(** The outcome of the date check on a settled pair of dates. *)
Definition check_dates (starts ends : value) : result unit :=
  late ← ge starts ends;
  if late : bool
  then Raise (UnprocessableEntity sales_ends_at_pointer
                (Format "sales-ends-at should be after sales-starts-at" []))
  else mret tt.

End Terms.

(** ** Queries on tickets

    The part of the SQLAlchemy query language that the list endpoint
    builds: the tickets, joined to the tag association table or not, under
    a chain of filters. *)

Module Sql.

Inductive criterion :=
| ticket_tag_id_eq (v : Z)            (* filter_by(ticket_tag_id=v) *)
| access_codes_any_id (v : Z)         (* Ticket.access_codes.any(id=v) *)
| id_in (ids : list Z)                (* Ticket.id.in_(ids) *)
| where_ (p : DB -> Ticket -> bool).  (* any other condition on the ticket *)

Inductive Query :=
| query_Ticket                        (* session.query(Ticket), Ticket.query *)
| join_ticket_tags (q : Query)        (* q.join(ticket_tags_table) *)
| Filter (q : Query) (c : criterion). (* q.filter(c), q.filter_by(c) *)

(** A row of a query: the ticket, and the association row it was joined
    with, if the query joins. *)
Definition row : Type := Ticket * option ticket_tags_row.

Definition holds (db : DB) (c : criterion) (r : row) : bool :=
  match c with
  | ticket_tag_id_eq v =>
      match snd r with
      | Some j => bool_decide (ticket_tag_id j = v)
      | None => false
      end
  | access_codes_any_id v => bool_decide (v ∈ access_codes (fst r))
  | id_in ids => bool_decide (id (fst r) ∈ ids)
  | where_ p => p db (fst r)
  end.

Fixpoint rows (db : DB) (q : Query) : list row :=
  match q with
  | query_Ticket => (fun t => (t, None)) <$> tickets db
  | join_ticket_tags q' =>
      r ← rows db q';
      (fun j => (fst r, Some j)) <$>
        filter (fun j => tt_ticket_id j = id (fst r)) (ticket_tags_table db)
  | Filter q' c => filter (fun r => holds db c r = true) (rows db q')
  end.

(** [Query.all()]: the tickets the query selects. *)
Definition all (db : DB) (q : Query) : list Ticket := fst <$> rows db q.

End Sql.
Import Sql.

(** ** The resources *)

Module Resources.

Section Helpers.

(** The helpers of the application that this module calls and whose code
    lives elsewhere: the permission check of the requester, the
    relationship check of a payload, and the event filter of a list
    query, which may itself read and update the view arguments. *)
Variable has_access : string -> value -> bool.
Variable require_relationship : list string -> gmap string value -> result unit.
Variable event_query : Query -> M (gmap string value) Query.

(** [TicketListPost.before_post(self, args, kwargs, data)] *)
Definition before_post (data : gmap string value) : result unit :=
  require_relationship ["event"] data;;
  event ← getitem data "event";
  if negb (has_access "is_coorganizer" event) then
    event_id ← getitem data "event_id";
    Raise (ObjectNotFound "event_id" (Format "Event: {} not found" [event_id]))
  else mret tt.

(** [TicketList.query], up to the access-code branch (the first three
    statement groups of the method): the query these filters select. *)
Definition query_filters (db : DB) : M (gmap string value) Query :=
  view_kwargs ← get;
  query_ ← (if truthy (dict_get view_kwargs "ticket_tag_id") then
              v ← lift (getitem view_kwargs "ticket_tag_id");
              ticket_tag ← lift (safe_query db TicketTagModel "id" v
                                   "ticket_tag_id");
              mret (Filter (join_ticket_tags query_Ticket)
                      (ticket_tag_id_eq (tag_id ticket_tag)))
            else mret query_Ticket);
  query_ ← event_query query_;
  view_kwargs ← get;
  if truthy (dict_get view_kwargs "access_code_id") then
    v ← lift (getitem view_kwargs "access_code_id");
    access_code ← lift (safe_query db AccessCodeModel "id" v "access_code_id");
    mret (Filter query_Ticket (access_codes_any_id (access_code_id access_code)))
  else mret query_.

(** [TicketList.query], the two order branches: the query built so far,
    restricted to the tickets of the order. *)
Definition query_order (db : DB) (query_ : Query)
    : M (gmap string value) Query :=
  view_kwargs ← get;
  (if truthy (dict_get view_kwargs "order_identifier") then
     v ← lift (getitem view_kwargs "order_identifier");
     order ← lift (safe_query db OrderModel "identifer" v "order_identifer");
     put (<["order_id" := VInt (order_id order)]> view_kwargs)
   else mret tt);;
  view_kwargs ← get;
  if truthy (dict_get view_kwargs "order_id") then
    v ← lift (getitem view_kwargs "order_id");
    order ← lift (safe_query db OrderModel "id" v "order_id");
    let ticket_ids := id <$> order_tickets order in
    mret (Filter query_ (id_in ticket_ids))
  else mret query_.

(** [TicketList.query(self, view_kwargs)] *)
Definition query (db : DB) : M (gmap string value) Query :=
  query_ ← query_filters db;
  query_order db query_.

(** [TicketDetail.before_get_object(self, view_kwargs)] *)
Definition before_get_object (db : DB) : M (gmap string value) unit :=
  view_kwargs ← get;
  if negb (bool_decide (dict_get view_kwargs "attendee_id" = VNone)) then
    v ← lift (getitem view_kwargs "attendee_id");
    attendee ← lift (safe_query db TicketHolderModel "id" v "attendee_id");
    if negb (bool_decide (ticket_id attendee = VNone))
    then put (<["id" := ticket_id attendee]> view_kwargs)
    else put (<["id" := VNone]> view_kwargs)
  else mret tt.

End Helpers.

(** The [check] of the permission decorator of [TicketList]:
    [lambda a: a.get('event_id') or a.get('event_identifier')]. *)
Definition TicketList_check (a : gmap string value) : value :=
  let event_id := dict_get a "event_id" in
  if truthy event_id then event_id else dict_get a "event_identifier".

End Resources.

(** ** Sample data *)

Module Sample.
Import TicketSchema Resources.

Definition ticket (n : Z) (codes : list Z) : Ticket :=
  {| id := n; event_id := VInt 1; quantity := VInt 100;
     min_order := VInt 5; max_order := VInt 10;
     sales_starts_at := VDateTime 1000 (Some 0);
     sales_ends_at := VDateTime 2000 (Some 0);
     access_codes := codes |}.

(** Ticket 1 carries tag 1 and no access code; ticket 2 is linked to access
    code 1 and carries no tag. *)
Definition t1 : Ticket := ticket 1 [].
Definition t2 : Ticket := ticket 2 [1].

Definition order0 : Order :=
  {| order_id := 0; identifer := "first"; order_tickets := [t1] |}.
Definition order7 : Order :=
  {| order_id := 7; identifer := "seventh"; order_tickets := [t2] |}.

Definition db : DB :=
  {| tickets := [t1; t2];
     ticket_tags := [ {| tag_id := 1 |} ];
     ticket_tags_table := [ {| tt_ticket_id := 1; ticket_tag_id := 1 |} ];
     access_code_rows := [ {| access_code_id := 1 |} ];
     orders := [order0; order7];
     ticket_holders := [ {| holder_id := 1; ticket_id := VInt 2 |};
                         {| holder_id := 2; ticket_id := VNone |} ] |}.

(** A requester who co-organizes event 1 only. *)
Definition has_access (permission : string) (event : value) : bool :=
  String.eqb permission "is_coorganizer" && bool_decide (event = VInt 1).

(** A relationship check that wants every listed relationship in the
    payload. *)
Definition require_relationship (names : list string)
    (data : gmap string value) : result unit :=
  match List.find (fun name => negb (contains name data)) names with
  | Some name =>
      Raise (UnprocessableEntity ("/data/relationships/" +:+ name)
               (Format "A valid relationship with {} resource is required"
                  [VStr name]))
  | None => Ok tt
  end.

(** An event filter that keeps the tickets of the event the view arguments
    name, if they name one. *)
Definition event_query (query_ : Query) : M (gmap string value) Query :=
  view_kwargs ← get;
  if truthy (dict_get view_kwargs "event_id") then
    mret (Filter query_
            (where_ (fun _ t =>
               bool_decide (event_id t = dict_get view_kwargs "event_id"))))
  else mret query_.

(** A conversion that takes the values of the field's own type as they
    are. *)
Definition convert (t : field_type) (v : value) : result value :=
  match t, v with
  | Integer, VInt _ | Float, VFloat _ | Str, VStr _ | Boolean, VBool _
  | DateTime, VDateTime _ _ => Ok v
  | _, _ => Raise (ValidationError "Not a valid value.")
  end.

(** -1.5 *)
Definition minus_one_and_a_half : spec_float := S754_finite true 3 (-1).

Definition tag_and_code : gmap string value :=
  {[ "ticket_tag_id" := VInt 1; "access_code_id" := VInt 1 ]}.

Definition new_ticket : gmap string value :=
  {[ "name" := VStr "Early bird"; "type" := VStr "free"; "event" := VInt 9 ]}.

End Sample.
(** ** Properties *)

Section DictFacts.
Context {V : Type}.
Implicit Types (d : gmap string V) (k : string).

Lemma contains_Some d k v : d !! k = Some v -> contains k d = true.
Proof. intros H. unfold contains. apply bool_decide_eq_true. by exists v. Qed.

Lemma contains_None d k : d !! k = None -> contains k d = false.
Proof.
  intros H. unfold contains. apply bool_decide_eq_false.
  rewrite H. by intros [? ?].
Qed.

Lemma getitem_Some d k v : d !! k = Some v -> getitem d k = Ok v.
Proof. intros H. unfold getitem. by rewrite H. Qed.

Lemma getitem_None d k : d !! k = None -> getitem d k = Raise (KeyError k).
Proof. intros H. unfold getitem. by rewrite H. Qed.

End DictFacts.

(** Unfolds the monads down to their matches. *)
Ltac run :=
  unfold mbind, M_bind, result_bind, mret, M_ret, result_ret,
    lift, raise, get, put in *; simpl in *.

(** *** The schema validators *)

Module SchemaFacts.
Import TicketSchema Terms.

Lemma validate_date_create db od doc (data : gmap string value) s e :
  od !! "data" = Some doc -> doc !! "id" = None ->
  data !! "sales_starts_at" = Some s -> data !! "sales_ends_at" = Some e ->
  validate_date db od data = (check_dates s e, data).
Proof.
  intros Hd Hid Hs He. unfold validate_date, check_dates.
  rewrite (getitem_Some _ _ _ Hd). run.
  rewrite (contains_None _ _ Hid).
  rewrite (getitem_Some _ _ _ Hs), (getitem_Some _ _ _ He).
  destruct (ge s e) as [[]|]; reflexivity.
Qed.

Lemma validate_date_update db od doc v t (data : gmap string value) :
  od !! "data" = Some doc -> doc !! "id" = Some v ->
  one (filter_by_id v (tickets db)) = Ok t ->
  let s := default (sales_starts_at t) (data !! "sales_starts_at") in
  let e := default (sales_ends_at t) (data !! "sales_ends_at") in
  validate_date db od data =
    (check_dates s e, <["sales_ends_at" := e]> (<["sales_starts_at" := s]> data)).
Proof.
  intros Hd Hid Ht s e. unfold validate_date, check_dates.
  rewrite (getitem_Some _ _ _ Hd). run.
  rewrite (contains_Some _ _ _ Hid), (getitem_Some _ _ _ Hid), Ht.
  subst s e.
  destruct (data !! "sales_starts_at") as [s|] eqn:Hs;
    destruct (data !! "sales_ends_at") as [e|] eqn:He; simpl.
  - rewrite (contains_Some _ _ _ Hs); simpl. rewrite (contains_Some _ _ _ He); simpl.
    rewrite (getitem_Some _ _ _ Hs), (getitem_Some _ _ _ He).
    rewrite (insert_id _ _ _ Hs), (insert_id _ _ _ He).
    destruct (ge s e) as [[]|]; reflexivity.
  - rewrite (contains_Some _ _ _ Hs); simpl. rewrite (contains_None _ _ He); simpl.
    rewrite (insert_id _ _ _ Hs).
    rewrite (getitem_Some (<["sales_ends_at" := _]> data) "sales_starts_at" s)
      by (by rewrite lookup_insert_ne).
    rewrite (getitem_Some (<["sales_ends_at" := _]> data) "sales_ends_at" _
               (lookup_insert_eq _ _ _)).
    destruct (ge s _) as [[]|]; reflexivity.
  - rewrite (contains_None _ _ Hs); simpl.
    rewrite (contains_Some (<["sales_starts_at" := _]> data) "sales_ends_at" e)
      by (by rewrite lookup_insert_ne).
    simpl.
    rewrite (getitem_Some (<["sales_starts_at" := _]> data) "sales_starts_at" _
               (lookup_insert_eq _ _ _)).
    rewrite (getitem_Some (<["sales_starts_at" := _]> data) "sales_ends_at" e)
      by (by rewrite lookup_insert_ne).
    rewrite (insert_id (<["sales_starts_at" := _]> data) "sales_ends_at" e)
      by (by rewrite lookup_insert_ne).
    destruct (ge _ e) as [[]|]; reflexivity.
  - rewrite (contains_None _ _ Hs); simpl.
    rewrite (contains_None (<["sales_starts_at" := _]> data) "sales_ends_at")
      by (by rewrite lookup_insert_ne).
    simpl.
    rewrite (getitem_Some (<["sales_ends_at" := _]> _) "sales_starts_at"
               (sales_starts_at t))
      by (rewrite lookup_insert_ne by done; apply lookup_insert_eq).
    rewrite (getitem_Some (<["sales_ends_at" := _]> _) "sales_ends_at" _
               (lookup_insert_eq _ _ _)).
    destruct (ge _ _) as [[]|]; reflexivity.
Qed.


(** The lookup of a stored ticket by a value that stands for its id. *)
Lemma filter_by_primary_key (rows : list Ticket) t :
  NoDup (id <$> rows) -> t ∈ rows ->
  filter (fun t' => id t' = id t) rows = [t].
Proof.
  induction rows as [|r rows IH]; intros Hnodup Hin.
  - by apply elem_of_nil in Hin.
  - rewrite fmap_cons in Hnodup. apply NoDup_cons in Hnodup as [Hr Hnodup].
    rewrite filter_cons. apply elem_of_cons in Hin as [->|Hin].
    + rewrite decide_True by done. f_equal.
      destruct (filter _ rows) as [|t' rest] eqn:Hf; [reflexivity|].
      assert (t' ∈ filter (fun t' => id t' = id r) rows) as Ht'
        by (rewrite Hf; apply list_elem_of_here).
      apply list_elem_of_filter in Ht' as [Hid Ht'].
      destruct Hr. rewrite <- Hid. by apply list_elem_of_fmap_2.
    + rewrite decide_False; [by apply IH|].
      intros Hid. destruct Hr. rewrite Hid. by apply list_elem_of_fmap_2.
Qed.

Lemma lookup_stored db v t :
  primary_key db -> t ∈ tickets db -> int_of_value v = Some (id t) ->
  one (filter_by_id v (tickets db)) = Ok t.
Proof.
  intros Hkey Hin Hv. unfold filter_by_id. rewrite Hv.
  by rewrite (filter_by_primary_key _ t Hkey Hin).
Qed.

Lemma lookup_unknown db v n :
  int_of_value v = Some n -> (forall t, t ∈ tickets db -> id t <> n) ->
  one (filter_by_id v (tickets db)) = Raise NoResultFound.
Proof.
  intros Hv Hnone. unfold filter_by_id. rewrite Hv.
  destruct (filter _ _) as [|t rest] eqn:Hf; [reflexivity|].
  assert (t ∈ filter (fun t => id t = n) (tickets db)) as Hin
    by (rewrite Hf; apply list_elem_of_here).
  apply list_elem_of_filter in Hin as [Hid Hin]. by destruct (Hnone t Hin).
Qed.

Lemma check_dates_datetimes ws (os : option Z) we (oe : option Z) :
  check_dates (VDateTime ws os) (VDateTime we oe) =
    if bool_decide (is_Some os <-> is_Some oe)
    then if bool_decide (instant we oe <= instant ws os)
         then Raise (UnprocessableEntity sales_ends_at_pointer
                       (Format "sales-ends-at should be after sales-starts-at"
                          []))
         else Ok tt
    else Raise TypeError.
Proof.
  unfold check_dates, ge, instant.
  destruct os as [ds|], oe as [de|]; simpl; run; try reflexivity;
    case_bool_decide;
    match goal with
    | |- context [?x ?= ?y] => destruct (Z.compare_spec x y)
    end; try reflexivity; lia.
Qed.

Lemma validate_date_outcome db od doc st (data : gmap string value) s e :
  primary_key db ->
  od !! "data" = Some doc ->
  stored db doc st ->
  effective st sales_starts_at "sales_starts_at" data = Some s ->
  effective st sales_ends_at "sales_ends_at" data = Some e ->
  fst (validate_date db od data) = check_dates s e.
Proof.
  intros Hkey Hd Hst Hs He. unfold stored in Hst.
  destruct (doc !! "id") as [v|] eqn:Hid.
  - destruct st as [t|]; [|done]. destruct Hst as [Hin Hv].
    rewrite (validate_date_update db od doc v t data Hd Hid
               (lookup_stored db v t Hkey Hin Hv)). simpl.
    unfold effective in Hs, He. simpl in Hs, He.
    destruct (data !! "sales_starts_at"), (data !! "sales_ends_at");
      simpl in *; congruence.
  - destruct st as [t|]; [done|]. unfold effective in Hs, He.
    destruct (data !! "sales_starts_at") eqn:E1; [|discriminate].
    destruct (data !! "sales_ends_at") eqn:E2; [|discriminate].
    rewrite (validate_date_create db od doc data _ _ Hd Hid E1 E2). simpl.
    congruence.
Qed.

(** C3: whenever the effective sale dates of a submitted payload are
    datetimes that compare (both aware of their time zone, or both naive),
    [validate_date] raises [UnprocessableEntity] with the pointer
    /data/attributes/sales-ends-at exactly when the start is at or after
    the end, and passes exactly when it is before it; equal instants are
    rejected.  A naive date against an aware one does not compare, and the
    call ends in the [TypeError] of the comparison. *)
Theorem validate_date_rejects_iff_not_before
    db od doc st (data : gmap string value) ws os we oe :
  primary_key db ->
  od !! "data" = Some doc ->
  stored db doc st ->
  effective st sales_starts_at "sales_starts_at" data
    = Some (VDateTime ws os) ->
  effective st sales_ends_at "sales_ends_at" data = Some (VDateTime we oe) ->
  ((is_Some os <-> is_Some oe) ->
     (fst (validate_date db od data) =
        Raise (UnprocessableEntity "/data/attributes/sales-ends-at"
                 (Format "sales-ends-at should be after sales-starts-at" []))
      <-> instant ws os >= instant we oe)
     /\ (fst (validate_date db od data) = Ok tt
         <-> instant ws os < instant we oe))
  /\ (~ (is_Some os <-> is_Some oe) ->
      fst (validate_date db od data) = Raise TypeError).
Proof.
  intros Hkey Hd Hst Hs He.
  rewrite (validate_date_outcome _ _ _ _ _ _ _ Hkey Hd Hst Hs He).
  rewrite check_dates_datetimes. split; intros Hsame.
  - rewrite (bool_decide_eq_true_2 _ Hsame).
    case_bool_decide; split; split; intros; try done; lia.
  - by rewrite (bool_decide_eq_false_2 _ Hsame).
Qed.

Lemma sample_primary_key : primary_key Sample.db.
Proof.
  unfold primary_key. simpl.
  apply NoDup_cons. split.
  - intros Hin. by apply list_elem_of_singleton in Hin.
  - apply NoDup_singleton.
Qed.

Lemma validate_date_rejects_iff_not_before_witness :
  let od : gmap string (gmap string value) :=
    {[ "data" := {[ "id" := VStr "1" ]} ]} in
  let data : gmap string value :=
    {[ "sales_ends_at" := VDateTime 4600 (Some 3600) ]} in
  (fst (validate_date Sample.db od data) =
     Raise (UnprocessableEntity "/data/attributes/sales-ends-at"
              (Format "sales-ends-at should be after sales-starts-at" []))
   <-> instant 1000 (Some 0) >= instant 4600 (Some 3600))
  /\ (fst (validate_date Sample.db od data) = Ok tt
      <-> instant 1000 (Some 0) < instant 4600 (Some 3600)).
Proof.
  intros od data.
  apply (validate_date_rejects_iff_not_before Sample.db od
           {[ "id" := VStr "1" ]} (Some Sample.t1) data
           1000 (Some 0) 4600 (Some 3600));
    [exact sample_primary_key|reflexivity| |reflexivity|reflexivity|done].
  split; [apply list_elem_of_here|reflexivity].
Defined.

(** C8: for an update whose document names a stored ticket by its id,
    [validate_date] leaves both sale dates in the payload, each the
    payload's own or else the stored ticket's, touches no other key, and
    its outcome is the date check on that effective pair. *)
Theorem validate_date_backfills_update
    db od doc v t (data : gmap string value) :
  primary_key db ->
  od !! "data" = Some doc ->
  doc !! "id" = Some v ->
  t ∈ tickets db ->
  int_of_value v = Some (id t) ->
  let starts := default (sales_starts_at t) (data !! "sales_starts_at") in
  let ends := default (sales_ends_at t) (data !! "sales_ends_at") in
  let after := snd (validate_date db od data) in
  after !! "sales_starts_at" = Some starts
  /\ after !! "sales_ends_at" = Some ends
  /\ (forall k, k <> "sales_starts_at" -> k <> "sales_ends_at" ->
        after !! k = data !! k)
  /\ fst (validate_date db od data) = check_dates starts ends.
Proof.
  intros Hkey Hd Hid Hin Hv starts ends after. subst after.
  rewrite (validate_date_update db od doc v t data Hd Hid
             (lookup_stored db v t Hkey Hin Hv)). simpl.
  repeat split.
  - rewrite lookup_insert_ne by done. apply lookup_insert_eq.
  - apply lookup_insert_eq.
  - intros k H1 H2. by rewrite !lookup_insert_ne.
Qed.

Lemma validate_date_backfills_update_witness :
  let od : gmap string (gmap string value) :=
    {[ "data" := {[ "id" := VStr "2" ]} ]} in
  let data : gmap string value :=
    {[ "sales_ends_at" := VDateTime 500 (Some 0) ]} in
  let after := snd (validate_date Sample.db od data) in
  after !! "sales_starts_at" = Some (VDateTime 1000 (Some 0))
  /\ after !! "sales_ends_at" = Some (VDateTime 500 (Some 0))
  /\ (forall k, k <> "sales_starts_at" -> k <> "sales_ends_at" ->
        after !! k = data !! k)
  /\ fst (validate_date Sample.db od data)
     = check_dates (VDateTime 1000 (Some 0)) (VDateTime 500 (Some 0)).
Proof.
  refine (validate_date_backfills_update Sample.db
            {[ "data" := {[ "id" := VStr "2" ]} ]} {[ "id" := VStr "2" ]}
            (VStr "2") Sample.t2 {[ "sales_ends_at" := VDateTime 500 (Some 0) ]}
            sample_primary_key _ _ _ _); try reflexivity.
  apply list_elem_of_further, list_elem_of_here.
Defined.

Lemma lt_raises a b e : lt a b = Raise e -> e = TypeError.
Proof.
  unfold lt.
  destruct a as [| | | | |? []], b as [| | | | |? []]; simpl; intros H;
    try discriminate; congruence.
Qed.

Lemma compare_Lt_decide a b :
  match a ?= b with Lt => true | _ => false end = bool_decide (a < b).
Proof.
  case_bool_decide; destruct (Z.compare_spec a b); try reflexivity; lia.
Qed.

(** C4: with integers under both max_order and min_order,
    [validate_quantity] raises [UnprocessableEntity] with the pointer
    /data/attributes/max-order exactly when max_order < min_order; equal
    bounds do not raise it. *)
Theorem validate_quantity_max_order_iff (data : gmap string value) a b :
  data !! "max_order" = Some (VInt a) ->
  data !! "min_order" = Some (VInt b) ->
  validate_quantity data =
    Raise (UnprocessableEntity "/data/attributes/max-order"
             (Format "max-order should be greater than min-order" []))
  <-> a < b.
Proof.
  intros Ha Hb. unfold validate_quantity.
  rewrite (contains_Some _ _ _ Ha), (contains_Some _ _ _ Hb). simpl.
  rewrite (getitem_Some _ _ _ Ha), (getitem_Some _ _ _ Hb). run.
  rewrite compare_Lt_decide. case_bool_decide as Hlt; simpl.
  - split; [intros _; exact Hlt | reflexivity].
  - split; [|intros; lia]. intros H. exfalso.
    destruct (data !! "quantity") as [q|] eqn:Hq.
    + rewrite (contains_Some _ _ _ Hq), (getitem_Some _ _ _ Hq) in H.
      simpl in H.
      destruct (lt q (VInt b)) as [[]|e] eqn:Hqb; try discriminate.
      apply lt_raises in Hqb. subst e. discriminate.
    + rewrite (contains_None _ _ Hq) in H. discriminate.
Qed.

Lemma validate_quantity_max_order_iff_witness :
  validate_quantity {[ "max_order" := VInt 3; "min_order" := VInt 3 ]} =
    Raise (UnprocessableEntity "/data/attributes/max-order"
             (Format "max-order should be greater than min-order" []))
  <-> 3 < 3.
Proof.
  apply (validate_quantity_max_order_iff
           {[ "max_order" := VInt 3; "min_order" := VInt 3 ]} 3 3);
    reflexivity.
Defined.

(** C5: with integers under both quantity and min_order, and a
    max_order/min_order check that did not fail, [validate_quantity]
    raises [UnprocessableEntity] with the pointer /data/attributes/quantity
    exactly when quantity < min_order, and passes otherwise. *)
Theorem validate_quantity_quantity_iff (data : gmap string value) q b :
  data !! "quantity" = Some (VInt q) ->
  data !! "min_order" = Some (VInt b) ->
  (forall a, data !! "max_order" = Some a -> lt a (VInt b) = Ok false) ->
  (validate_quantity data =
     Raise (UnprocessableEntity "/data/attributes/quantity"
              (Format "quantity should be greater than min-order" []))
   <-> q < b)
  /\ (validate_quantity data = Ok tt <-> b <= q).
Proof.
  intros Hq Hb Hmax. unfold validate_quantity.
  rewrite (contains_Some _ _ _ Hq), (contains_Some _ _ _ Hb).
  rewrite (getitem_Some _ _ _ Hq), (getitem_Some _ _ _ Hb).
  assert ((if contains "max_order" data && true
           then max_order ← getitem data "max_order";
                min_order ← Ok (VInt b);
                below ← lt max_order min_order;
                if below : bool
                then Raise (UnprocessableEntity max_order_pointer
                       (Format "max-order should be greater than min-order" []))
                else mret tt
           else mret tt) = Ok tt) as ->.
  { destruct (data !! "max_order") as [a|] eqn:Ha.
    - rewrite (contains_Some _ _ _ Ha), (getitem_Some _ _ _ Ha). run.
      by rewrite (Hmax a eq_refl).
    - by rewrite (contains_None _ _ Ha). }
  run. rewrite compare_Lt_decide.
  case_bool_decide; simpl; split; split; intros; try done; lia.
Qed.

Lemma validate_quantity_quantity_iff_witness :
  (validate_quantity
     {[ "quantity" := VInt 2; "min_order" := VInt 3; "max_order" := VInt 4 ]} =
     Raise (UnprocessableEntity "/data/attributes/quantity"
              (Format "quantity should be greater than min-order" []))
   <-> 2 < 3)
  /\ (validate_quantity
        {[ "quantity" := VInt 2; "min_order" := VInt 3; "max_order" := VInt 4 ]}
      = Ok tt <-> 3 <= 2).
Proof.
  apply (validate_quantity_quantity_iff
           {[ "quantity" := VInt 2; "min_order" := VInt 3;
              "max_order" := VInt 4 ]} 2 3); try reflexivity.
  intros a Ha. vm_compute in Ha. injection Ha as <-. reflexivity.
Defined.

(** C9: [validate_quantity] is a function of the payload alone, and a
    payload without min_order passes it whatever else it holds; so a
    max_order, or a quantity, below the min_order of the stored ticket is
    accepted. *)
Theorem validate_quantity_skips_without_min_order :
  (forall data : gmap string value,
     data !! "min_order" = None -> validate_quantity data = Ok tt)
  /\ (exists (t : Ticket) (m b : Z),
        min_order t = VInt b /\ m < b
        /\ validate_quantity {[ "max_order" := VInt m ]} = Ok tt
        /\ validate_quantity {[ "quantity" := VInt m ]} = Ok tt).
Proof.
  split.
  - intros data Hmin. unfold validate_quantity.
    rewrite (contains_None _ _ Hmin), !andb_false_r. reflexivity.
  - exists Sample.t1, 2, 5. repeat split; reflexivity.
Qed.

Lemma validate_quantity_skips_without_min_order_witness :
  validate_quantity {[ "max_order" := VInt 2; "quantity" := VInt 1 ]} = Ok tt.
Proof.
  apply (proj1 validate_quantity_skips_without_min_order). reflexivity.
Defined.


Lemma non_negative_negative v : negative v -> non_negative v = Ok false.
Proof.
  destruct v as [| |n|f| |]; simpl; try done.
  - intros Hn. unfold non_negative, ge. simpl. run.
    by destruct (Z.compare_spec n 0); try lia.
  - unfold non_negative, ge. simpl. run.
    destruct f as [s|[]| |[] m e]; simpl; try done.
    intros _. destruct (0 <=? e) eqn:He; simpl.
    + assert (0 < 2 ^ e) as Hpow by (apply Z.pow_pos_nonneg; lia).
      assert (- Z.pos m * 2 ^ e < 0) as Hneg by nia.
      by rewrite (proj2 (Z.compare_lt_iff _ _) Hneg).
    + reflexivity.
Qed.

Lemma non_negative_zero v : zero v -> non_negative v = Ok true.
Proof.
  destruct v as [| |n|f| |]; simpl; try done.
  - by intros ->.
  - by destruct f as [s|[]| |[] m e].
Qed.

(** C10: each of price, quantity, min_order and max_order is declared
    nullable with the validator [n >= 0]: a null passes deserialization
    untouched, a value that converts to a negative number is refused, and
    one that converts to zero is accepted. *)
Theorem numeric_fields_reject_negative_accept_zero_and_null name :
  name ∈ ["price"; "quantity"; "min_order"; "max_order"] ->
  exists f,
    field_named name = Some f
    /\ allow_none f = true
    /\ validate f = [fun n => ge n (VInt 0)]
    /\ forall convert,
         deserialize convert f VNone = Ok VNone
         /\ forall raw v,
              raw <> VNone -> convert (type_ f) raw = Ok v ->
              (negative v ->
                 deserialize convert f raw =
                   Raise (ValidationError "Invalid value."))
              /\ (zero v -> deserialize convert f raw = Ok v).
Proof.
  intros Hname.
  assert (forall f, allow_none f = true -> validate f = [non_negative] ->
            forall convert,
              deserialize convert f VNone = Ok VNone
              /\ forall raw v,
                   raw <> VNone -> convert (type_ f) raw = Ok v ->
                   (negative v ->
                      deserialize convert f raw =
                        Raise (ValidationError "Invalid value."))
                   /\ (zero v -> deserialize convert f raw = Ok v)) as Hf.
  { intros f Hnull Hval convert. split.
    - simpl. by rewrite Hnull.
    - intros raw v Hraw Hv.
      assert (deserialize convert f raw =
                (output ← convert (type_ f) raw;
                 run_validators (validate f) output;; mret output)) as ->
        by (by destruct raw).
      rewrite Hv, Hval. run. split; intros H.
      + by rewrite (non_negative_negative v H).
      + by rewrite (non_negative_zero v H). }
  repeat (apply elem_of_cons in Hname as [->|Hname]);
    [| | | |by apply elem_of_nil in Hname];
    eexists; (split; [reflexivity|]);
    (split; [reflexivity|]); (split; [reflexivity|]);
    by apply Hf.
Qed.

Lemma numeric_fields_reject_negative_accept_zero_and_null_witness :
  exists f,
    field_named "price" = Some f
    /\ deserialize Sample.convert f VNone = Ok VNone
    /\ deserialize Sample.convert f (VFloat Sample.minus_one_and_a_half) =
         Raise (ValidationError "Invalid value.")
    /\ deserialize Sample.convert f (VFloat (S754_zero true)) =
         Ok (VFloat (S754_zero true)).
Proof.
  destruct (numeric_fields_reject_negative_accept_zero_and_null "price"
              (list_elem_of_here _ _)) as (f & Hf & _ & _ & H).
  exists f. split; [exact Hf|].
  vm_compute in Hf. injection Hf as <-.
  destruct (H Sample.convert) as [Hnull Hnum].
  split; [exact Hnull|]. split.
  - apply (Hnum (VFloat Sample.minus_one_and_a_half)
             (VFloat Sample.minus_one_and_a_half)); [done|reflexivity..].
  - apply (Hnum (VFloat (S754_zero true)) (VFloat (S754_zero true)));
      [done|reflexivity..].
Defined.

End SchemaFacts.

(** *** The resources *)

Module ResourceFacts.
Import Resources.

Section SafeQuery.
Context {A : Type} (db : DB) (model : Model A).
Variables (column_name : string) (col : A -> value).
Hypothesis known_column : column model column_name = Some col.

Lemma safe_query_missing v parameter_name :
  (forall r, r ∈ table model db -> col r <> v) ->
  safe_query db model column_name v parameter_name =
    Raise (ObjectNotFound parameter_name
             (Format "{}: {} not found" [VStr (__name__ model); v])).
Proof.
  intros Hnone. unfold safe_query. rewrite known_column.
  destruct (filter _ _) as [|r rest] eqn:Hf; [reflexivity|].
  assert (r ∈ filter (fun r => col r = v) (table model db)) as Hr
    by (rewrite Hf; apply list_elem_of_here).
  apply list_elem_of_filter in Hr as [Hv Hin]. by destruct (Hnone r Hin).
Qed.

Lemma safe_query_found v parameter_name r :
  r ∈ table model db -> col r = v ->
  (forall r', r' ∈ table model db -> col r' = v -> r' = r) ->
  safe_query db model column_name v parameter_name = Ok r.
Proof.
  intros Hin Hv Hunique. unfold safe_query. rewrite known_column.
  destruct (filter _ _) as [|r0 rest] eqn:Hf.
  - assert (r ∈ filter (fun r => col r = v) (table model db)) as Hr
      by (by apply list_elem_of_filter).
    rewrite Hf in Hr. by apply elem_of_nil in Hr.
  - assert (r0 ∈ filter (fun r => col r = v) (table model db)) as Hr
      by (rewrite Hf; apply list_elem_of_here).
    apply list_elem_of_filter in Hr as [Hv0 Hin0].
    by rewrite (Hunique r0 Hin0 Hv0).
Qed.

End SafeQuery.

Lemma truthy_int n : n <> 0 -> truthy (VInt n) = true.
Proof. intros Hn. simpl. by destruct (Z.eqb_spec n 0). Qed.

Lemma truthy_str s : s <> EmptyString -> truthy (VStr s) = true.
Proof. intros Hs. simpl. by destruct (String.eqb_spec s EmptyString). Qed.

Lemma dict_get_Some (d : gmap string value) k v :
  d !! k = Some v -> dict_get d k = v.
Proof. intros H. unfold dict_get. by rewrite H. Qed.

Lemma fst_filter {B C} (P : B -> Prop) `{!forall b, Decision (P b)}
    (l : list (B * C)) :
  fst <$> filter (fun r => P (fst r)) l = filter P (fst <$> l).
Proof.
  induction l as [|r l IH]; [reflexivity|].
  rewrite fmap_cons, !filter_cons. simpl.
  destruct (decide (P (fst r))); by rewrite <- IH.
Qed.

(** A filter on the ticket ids keeps of a query exactly the tickets whose
    id is listed. *)
Lemma all_Filter_id_in db q ids :
  all db (Filter q (id_in ids)) = filter (fun t => id t ∈ ids) (all db q).
Proof.
  unfold all. simpl. rewrite <- fst_filter.
  f_equal. apply list_filter_iff. intros r.
  by rewrite bool_decide_eq_true.
Qed.

(** The order branches, by order id. *)
Lemma query_order_by_id db q (vk : gmap string value) n :
  truthy (dict_get vk "order_identifier") = false ->
  vk !! "order_id" = Some (VInt n) -> n <> 0 ->
  query_order db q vk =
    (o ← lift (safe_query db OrderModel "id" (VInt n) "order_id");
     mret (Filter q (id_in (id <$> order_tickets o)))) vk.
Proof.
  intros Hident Hid Hn. unfold query_order. run.
  rewrite Hident, (dict_get_Some _ _ _ Hid), (truthy_int n Hn).
  rewrite (getitem_Some _ _ _ Hid). reflexivity.
Qed.

(** The order branches, by order identifier. *)
Lemma query_order_by_identifier db q (vk : gmap string value) s :
  vk !! "order_identifier" = Some (VStr s) -> s <> EmptyString ->
  query_order db q vk =
    match safe_query db OrderModel "identifer" (VStr s) "order_identifer" with
    | Raise e => (Raise e, vk)
    | Ok o =>
        let vk' := <["order_id" := VInt (order_id o)]> vk in
        if truthy (VInt (order_id o)) then
          (o' ← lift (safe_query db OrderModel "id" (VInt (order_id o))
                        "order_id");
           mret (Filter q (id_in (id <$> order_tickets o')))) vk'
        else (Ok q, vk')
    end.
Proof.
  intros Hident Hs. unfold query_order. run.
  rewrite (dict_get_Some _ _ _ Hident), (truthy_str s Hs).
  rewrite (getitem_Some _ _ _ Hident).
  destruct (safe_query db OrderModel "identifer" _ _) as [o|e]; [|reflexivity].
  rewrite (dict_get_Some (<["order_id" := _]> vk) "order_id" _
             (lookup_insert_eq _ _ _)).
  rewrite (getitem_Some (<["order_id" := _]> vk) "order_id" _
             (lookup_insert_eq _ _ _)).
  simpl. by destruct (order_id o =? 0).
Qed.


Lemma query_order_skipped db q (vk : gmap string value) :
  truthy (dict_get vk "order_identifier") = false ->
  truthy (dict_get vk "order_id") = false ->
  query_order db q vk = (Ok q, vk).
Proof. intros H1 H2. unfold query_order. run. by rewrite H1, H2. Qed.

Lemma query_unfold event_query db (vk vk1 : gmap string value) q :
  query_filters event_query db vk = (Ok q, vk1) ->
  query event_query db vk = query_order db q vk1.
Proof. intros H. unfold query. run. by rewrite H. Qed.

(** C6, as the code has it: once the earlier filters have built a query,
    an order id that is not zero and names an order, given directly or
    found through a non-empty order identifier, restricts that query to
    exactly the tickets whose id is among the order's tickets; such an id or
    identifier that names no order raises [ObjectNotFound]; without either,
    the query is returned as built. *)
Theorem query_restricts_to_order_tickets
    event_query db (vk vk1 : gmap string value) q :
  query_filters event_query db vk = (Ok q, vk1) ->
  (forall ids,
     all db (Filter q (id_in ids)) = filter (fun t => id t ∈ ids) (all db q))
  /\ (forall n o,
        truthy (dict_get vk1 "order_identifier") = false ->
        vk1 !! "order_id" = Some (VInt n) -> n <> 0 ->
        o ∈ orders db -> order_id o = n ->
        (forall o', o' ∈ orders db -> order_id o' = n -> o' = o) ->
        query event_query db vk =
          (Ok (Filter q (id_in (id <$> order_tickets o))), vk1))
  /\ (forall s o,
        vk1 !! "order_identifier" = Some (VStr s) -> s <> EmptyString ->
        o ∈ orders db -> identifer o = s -> order_id o <> 0 ->
        (forall o', o' ∈ orders db ->
           identifer o' = s \/ order_id o' = order_id o -> o' = o) ->
        query event_query db vk =
          (Ok (Filter q (id_in (id <$> order_tickets o))),
           <["order_id" := VInt (order_id o)]> vk1))
  /\ (forall s,
        vk1 !! "order_identifier" = Some (VStr s) -> s <> EmptyString ->
        (forall o, o ∈ orders db -> identifer o <> s) ->
        exists d,
          query event_query db vk =
            (Raise (ObjectNotFound "order_identifer" d), vk1))
  /\ (forall n,
        truthy (dict_get vk1 "order_identifier") = false ->
        vk1 !! "order_id" = Some (VInt n) -> n <> 0 ->
        (forall o, o ∈ orders db -> order_id o <> n) ->
        exists d,
          query event_query db vk = (Raise (ObjectNotFound "order_id" d), vk1))
  /\ (truthy (dict_get vk1 "order_identifier") = false ->
      truthy (dict_get vk1 "order_id") = false ->
      query event_query db vk = (Ok q, vk1)).
Proof.
  intros Hq. rewrite (query_unfold _ _ _ _ _ Hq).
  split; [intros ids; apply all_Filter_id_in|].
  split; [|split; [|split; [|split]]].
  - intros n o Hident Hid Hn Hin Ho Hunique.
    rewrite (query_order_by_id _ _ _ n Hident Hid Hn).
    unfold mbind, M_bind, lift.
    rewrite (safe_query_found db OrderModel "id" _ eq_refl (VInt n) _ o);
      [reflexivity|done|simpl; by rewrite Ho|].
    intros o' Hin' Ho'. simpl in Ho'. apply Hunique; [exact Hin'|congruence].
  - intros s o Hident Hs Hin Ho Hn Hunique.
    rewrite (query_order_by_identifier _ _ _ s Hident Hs).
    rewrite (safe_query_found db OrderModel "identifer" _ eq_refl (VStr s) _ o);
      [|done|simpl; by rewrite Ho|].
    + rewrite (truthy_int _ Hn). unfold mbind, M_bind, lift.
      rewrite (safe_query_found db OrderModel "id" _ eq_refl _ _ o);
        [reflexivity|done|reflexivity|].
      intros o' Hin' Ho'. simpl in Ho'. apply Hunique; [exact Hin'|].
      right. congruence.
    + intros o' Hin' Ho'. simpl in Ho'. apply Hunique; [exact Hin'|].
      left. congruence.
  - intros s Hident Hs Hnone.
    rewrite (query_order_by_identifier _ _ _ s Hident Hs).
    rewrite (safe_query_missing db OrderModel "identifer" _ eq_refl).
    + by eexists.
    + intros o Hin Ho. simpl in Ho. apply (Hnone o Hin). congruence.
  - intros n Hident Hid Hn Hnone.
    rewrite (query_order_by_id _ _ _ n Hident Hid Hn).
    unfold mbind, M_bind, lift.
    rewrite (safe_query_missing db OrderModel "id" _ eq_refl).
    + by eexists.
    + intros o Hin Ho. simpl in Ho. apply (Hnone o Hin). congruence.
  - intros H1 H2. by apply query_order_skipped.
Qed.

Lemma query_restricts_to_order_tickets_witness :
  query Sample.event_query Sample.db {[ "order_id" := VInt 7 ]} =
    (Ok (Filter query_Ticket (id_in [2])), {[ "order_id" := VInt 7 ]})
  /\ all Sample.db (Filter query_Ticket (id_in [2])) = [Sample.t2].
Proof.
  destruct (query_restricts_to_order_tickets Sample.event_query Sample.db
              {[ "order_id" := VInt 7 ]} {[ "order_id" := VInt 7 ]}
              query_Ticket) as (Hall & Hid & _); [reflexivity|].
  split.
  - apply (Hid 7 Sample.order7); try reflexivity; try done.
    + apply list_elem_of_further, list_elem_of_here.
    + intros o' Hin Ho'.
      apply elem_of_cons in Hin as [->|Hin]; [discriminate|].
      by apply list_elem_of_singleton in Hin.
  - rewrite Hall. reflexivity.
Defined.

(** Counterexample to C6 as it is stated, at the order whose id is 0: the branch is
    skipped, and the query returned selects ticket 2, which is not among
    the tickets of that order. *)
Lemma query_order_id_zero_unrestricted :
  let vk : gmap string value := {[ "order_id" := VInt 0 ]} in
  Sample.order0 ∈ orders Sample.db
  /\ vk !! "order_id" = Some (VInt (order_id Sample.order0))
  /\ query Sample.event_query Sample.db vk = (Ok query_Ticket, vk)
  /\ Sample.t2 ∈ all Sample.db query_Ticket
  /\ id Sample.t2 ∉ id <$> order_tickets Sample.order0.
Proof.
  repeat split.
  - apply list_elem_of_here.
  - apply list_elem_of_further, list_elem_of_here.
  - intros H. by apply list_elem_of_singleton in H.
Qed.

(** C7: with an attendee id in the view arguments, [before_get_object]
    raises [ObjectNotFound] when no ticket holder has that id; when one
    has, the ['id'] of the view arguments becomes the holder's ticket id,
    and [None] when the holder has no ticket. *)
Theorem before_get_object_follows_attendee db (vk : gmap string value) v :
  vk !! "attendee_id" = Some v -> v <> VNone ->
  ((forall h, h ∈ ticket_holders db -> VInt (holder_id h) <> v) ->
     exists d,
       before_get_object db vk = (Raise (ObjectNotFound "attendee_id" d), vk))
  /\ (forall h,
        h ∈ ticket_holders db -> VInt (holder_id h) = v ->
        (forall h', h' ∈ ticket_holders db -> VInt (holder_id h') = v ->
           h' = h) ->
        (ticket_id h <> VNone ->
           before_get_object db vk = (Ok tt, <["id" := ticket_id h]> vk))
        /\ (ticket_id h = VNone ->
              before_get_object db vk = (Ok tt, <["id" := VNone]> vk))).
Proof.
  intros Hv Hnone.
  assert (before_get_object db vk =
            match safe_query db TicketHolderModel "id" v "attendee_id" with
            | Ok attendee =>
                if negb (bool_decide (ticket_id attendee = VNone))
                then (Ok tt, <["id" := ticket_id attendee]> vk)
                else (Ok tt, <["id" := VNone]> vk)
            | Raise e => (Raise e, vk)
            end) as ->.
  { unfold before_get_object. run.
    rewrite (dict_get_Some _ _ _ Hv), (bool_decide_eq_false_2 _ Hnone). simpl.
    rewrite (getitem_Some _ _ _ Hv).
    destruct (safe_query _ _ _ _ _) as [h|]; [|reflexivity].
    by destruct (negb _). }
  split.
  - intros Hmissing.
    rewrite (safe_query_missing db TicketHolderModel "id" _ eq_refl);
      [by eexists|exact Hmissing].
  - intros h Hin Hh Hunique.
    rewrite (safe_query_found db TicketHolderModel "id" _ eq_refl v _ h
               Hin Hh Hunique).
    split; intros Ht.
    + by rewrite (bool_decide_eq_false_2 _ Ht).
    + by rewrite (bool_decide_eq_true_2 _ Ht).
Qed.

Lemma before_get_object_follows_attendee_witness :
  before_get_object Sample.db {[ "attendee_id" := VInt 1 ]} =
    (Ok tt, <["id" := VInt 2]> {[ "attendee_id" := VInt 1 ]}).
Proof.
  destruct (before_get_object_follows_attendee Sample.db
              {[ "attendee_id" := VInt 1 ]} (VInt 1)) as [_ Hfound];
    [reflexivity|done|].
  apply (Hfound {| holder_id := 1; ticket_id := VInt 2 |});
    [apply list_elem_of_here|reflexivity| |done].
  intros h' Hin Hh'.
  apply elem_of_cons in Hin as [->|Hin]; [reflexivity|].
  apply list_elem_of_singleton in Hin as ->. discriminate.
Defined.


(** Whatever the tag branch and the event filter have built, a non-zero
    access code id that names an access code makes the filters return the
    query of all tickets under the access-code filter alone. *)
Lemma query_filters_access_code_alone
    event_query db (vk vk1 : gmap string value) q n :
  query_filters event_query db vk = (Ok q, vk1) ->
  vk1 !! "access_code_id" = Some (VInt n) -> n <> 0 ->
  q = Filter query_Ticket (access_codes_any_id n).
Proof.
  intros Hq Hcode Hn. unfold query_filters in Hq. run.
  destruct (if truthy (dict_get vk "ticket_tag_id") then _ else _)
    as [[q0|e0] vk0]; [|discriminate].
  destruct (event_query q0 vk0) as [[q1|e1] vk1']; [|discriminate].
  destruct (truthy (dict_get vk1' "access_code_id")) eqn:Htruthy.
  - destruct (getitem vk1' "access_code_id") as [v|] eqn:Hv;
      [|discriminate].
    destruct (safe_query db AccessCodeModel "id" v "access_code_id")
      as [a|] eqn:Ha; [|discriminate].
    injection Hq as <- <-.
    rewrite (getitem_Some _ _ _ Hcode) in Hv. injection Hv as <-.
    unfold safe_query in Ha. simpl in Ha.
    destruct (filter _ _) as [|a0 rest] eqn:Hf; [discriminate|].
    injection Ha as ->.
    assert (a ∈ filter (fun r => VInt (access_code_id r) = VInt n)
                  (access_code_rows db)) as Hin
      by (rewrite Hf; apply list_elem_of_here).
    apply list_elem_of_filter in Hin as [Hid _]. congruence.
  - injection Hq as <- <-.
    rewrite (dict_get_Some _ _ _ Hcode), (truthy_int n Hn) in Htruthy.
    discriminate.
Qed.

(** C1 at a request that carries both ticket tag 1 and access code 1: the
    query returned is the access-code filter on all tickets; it selects
    ticket 2, which does not carry the tag, and the tag filter that was
    applied first is gone. *)
Theorem query_access_code_discards_tag_filter :
  fst (query Sample.event_query Sample.db Sample.tag_and_code) =
    Ok (Filter query_Ticket (access_codes_any_id 1))
  /\ all Sample.db (Filter query_Ticket (access_codes_any_id 1)) = [Sample.t2]
  /\ all Sample.db
       (Filter (join_ticket_tags query_Ticket) (ticket_tag_id_eq 1))
     = [Sample.t1]
  /\ ~ (exists j, j ∈ ticket_tags_table Sample.db
                  /\ tt_ticket_id j = id Sample.t2 /\ ticket_tag_id j = 1).
Proof.
  split; [reflexivity|]. split; [reflexivity|]. split; [reflexivity|].
  intros (j & Hin & Ht & _).
  apply list_elem_of_singleton in Hin as ->. discriminate.
Qed.

(** C2, on a payload as the schema delivers it: a request for an event the
    requester does not co-organize ends in the [KeyError] of the lookup of
    ['event_id'], a key the schema never produces, not in
    [ObjectNotFound]. *)
Theorem before_post_no_access_raises_KeyError :
  ("event_id" ∉ TicketSchema.attributes)
  /\ forall has_access require_relationship (data : gmap string value) event,
       require_relationship ["event"] data = Ok tt ->
       data !! "event" = Some event ->
       has_access "is_coorganizer" event = false ->
       data !! "event_id" = None ->
       before_post has_access require_relationship data =
         Raise (KeyError "event_id").
Proof.
  split.
  - unfold TicketSchema.attributes. simpl.
    repeat (apply not_elem_of_cons; split; [discriminate|]).
    apply not_elem_of_nil.
  - intros has_access require_relationship data event Hreq Hevent Hno Hid.
    unfold before_post. rewrite Hreq. run.
    rewrite (getitem_Some _ _ _ Hevent), Hno. simpl.
    by rewrite (getitem_None _ _ Hid).
Qed.

Lemma before_post_no_access_raises_KeyError_witness :
  before_post Sample.has_access Sample.require_relationship Sample.new_ticket =
    Raise (KeyError "event_id").
Proof.
  apply (proj2 before_post_no_access_raises_KeyError
           Sample.has_access Sample.require_relationship Sample.new_ticket
           (VInt 9)); reflexivity.
Defined.

(** With an ['event_id'] in the payload, the same request does end in
    the [ObjectNotFound] the method constructs. *)
Lemma before_post_no_access_with_event_id
    has_access require_relationship (data : gmap string value) event event_id :
  require_relationship ["event"] data = Ok tt ->
  data !! "event" = Some event ->
  has_access "is_coorganizer" event = false ->
  data !! "event_id" = Some event_id ->
  before_post has_access require_relationship data =
    Raise (ObjectNotFound "event_id" (Format "Event: {} not found" [event_id])).
Proof.
  intros Hreq Hevent Hno Hid. unfold before_post. rewrite Hreq. run.
  rewrite (getitem_Some _ _ _ Hevent), Hno. simpl.
  by rewrite (getitem_Some _ _ _ Hid).
Qed.

End ResourceFacts.

(** *** Further properties of the schema validators *)

Module SchemaMore.
Import TicketSchema Terms SchemaFacts.

Lemma validate_date_no_document db od (data : gmap string value) :
  od !! "data" = None ->
  validate_date db od data = (Raise (KeyError "data"), data).
Proof.
  intros Hd. unfold validate_date. by rewrite (getitem_None _ _ Hd).
Qed.

Lemma validate_date_lookup_fails db od doc v e (data : gmap string value) :
  od !! "data" = Some doc -> doc !! "id" = Some v ->
  one (filter_by_id v (tickets db)) = Raise e ->
  validate_date db od data = (Raise e, data).
Proof.
  intros Hd Hid He. unfold validate_date.
  rewrite (getitem_Some _ _ _ Hd). run.
  by rewrite (contains_Some _ _ _ Hid), (getitem_Some _ _ _ Hid), He.
Qed.

Lemma validate_date_creation db od doc (data : gmap string value) :
  od !! "data" = Some doc -> doc !! "id" = None ->
  validate_date db od data =
    (match data !! "sales_starts_at", data !! "sales_ends_at" with
     | None, _ => Raise (KeyError "sales_starts_at")
     | Some _, None => Raise (KeyError "sales_ends_at")
     | Some s, Some e => check_dates s e
     end, data).
Proof.
  intros Hd Hid.
  destruct (data !! "sales_starts_at") as [s|] eqn:Hs.
  - destruct (data !! "sales_ends_at") as [e|] eqn:He.
    + by apply (validate_date_create db od doc).
    + unfold validate_date. rewrite (getitem_Some _ _ _ Hd). run.
      rewrite (contains_None _ _ Hid).
      by rewrite (getitem_Some _ _ _ Hs), (getitem_None _ _ He).
  - unfold validate_date. rewrite (getitem_Some _ _ _ Hd). run.
    rewrite (contains_None _ _ Hid).
    by rewrite (getitem_None _ _ Hs).
Qed.

(** X1: running [validate_date] again on the payload it left behind gives
    the same outcome and leaves that payload as it is. *)
Theorem validate_date_idempotent db od (data : gmap string value) :
  validate_date db od (snd (validate_date db od data)) =
    validate_date db od data.
Proof.
  destruct (od !! "data") as [doc|] eqn:Hd.
  - destruct (doc !! "id") as [v|] eqn:Hid.
    + destruct (one (filter_by_id v (tickets db))) as [t|e] eqn:Ht.
      * rewrite !(validate_date_update db od doc v t _ Hd Hid Ht). simpl.
        rewrite lookup_insert_ne by done.
        rewrite !lookup_insert_eq. simpl.
        f_equal.
        rewrite (insert_id (<["sales_ends_at" := _]> _) "sales_starts_at")
          by (rewrite lookup_insert_ne by done; apply lookup_insert_eq).
        apply insert_id, lookup_insert_eq.
      * by rewrite !(validate_date_lookup_fails db od doc v e _ Hd Hid Ht).
    + by rewrite !(validate_date_creation db od doc _ Hd Hid).
  - by rewrite !(validate_date_no_document db od _ Hd).
Qed.

(** X2: [validate_date] never changes or removes a value the payload
    supplies, whatever its outcome. *)
Theorem validate_date_keeps_payload db od (data : gmap string value) k v :
  data !! k = Some v ->
  snd (validate_date db od data) !! k = Some v.
Proof.
  intros Hk.
  destruct (od !! "data") as [doc|] eqn:Hd.
  - destruct (doc !! "id") as [i|] eqn:Hid.
    + destruct (one (filter_by_id i (tickets db))) as [t|e] eqn:Ht.
      * rewrite (validate_date_update db od doc i t _ Hd Hid Ht). simpl.
        destruct (decide (k = "sales_ends_at")) as [->|Hne].
        { by rewrite lookup_insert_eq, Hk. }
        rewrite lookup_insert_ne by done.
        destruct (decide (k = "sales_starts_at")) as [->|Hns].
        { by rewrite lookup_insert_eq, Hk. }
        by rewrite lookup_insert_ne.
      * by rewrite (validate_date_lookup_fails db od doc i e _ Hd Hid Ht).
    + by rewrite (validate_date_creation db od doc _ Hd Hid).
  - by rewrite (validate_date_no_document db od _ Hd).
Qed.

Lemma validate_date_keeps_payload_witness :
  snd (validate_date Sample.db {[ "data" := {[ "id" := VInt 1 ]} ]}
         {[ "sales_ends_at" := VDateTime 500 (Some 0) ]}) !! "sales_ends_at"
  = Some (VDateTime 500 (Some 0)).
Proof.
  apply (validate_date_keeps_payload Sample.db
           {[ "data" := {[ "id" := VInt 1 ]} ]}
           {[ "sales_ends_at" := VDateTime 500 (Some 0) ]}). reflexivity.
Defined.

(** X3: an update whose id, an integer or the decimal string of one,
    stands for the id of no stored ticket ends in the [NoResultFound] of
    the lookup, before any date is read, and the payload is left as it
    was. *)
Theorem validate_date_unknown_ticket
    db od doc v n (data : gmap string value) :
  od !! "data" = Some doc -> doc !! "id" = Some v ->
  int_of_value v = Some n ->
  (forall t, t ∈ tickets db -> id t <> n) ->
  validate_date db od data = (Raise NoResultFound, data).
Proof.
  intros Hd Hid Hv Hnone.
  apply (validate_date_lookup_fails db od doc v); [done..|].
  by apply (lookup_unknown db v n).
Qed.

Lemma validate_date_unknown_ticket_witness :
  validate_date Sample.db {[ "data" := {[ "id" := VStr "3" ]} ]}
    {[ "sales_ends_at" := VDateTime 500 (Some 0) ]}
  = (Raise NoResultFound, {[ "sales_ends_at" := VDateTime 500 (Some 0) ]}).
Proof.
  apply (validate_date_unknown_ticket Sample.db
           {[ "data" := {[ "id" := VStr "3" ]} ]} {[ "id" := VStr "3" ]}
           (VStr "3") 3); [reflexivity..|].
  intros t Hin.
  apply elem_of_cons in Hin as [->|Hin]; [discriminate|].
  apply list_elem_of_singleton in Hin as ->. discriminate.
Defined.

(** X4: a creation is never backfilled: a payload without an id in its
    document that lacks a sale date ends in the [KeyError] of that date,
    the start first, and the payload is left as it was. *)
Theorem validate_date_creation_missing_date
    db od doc (data : gmap string value) :
  od !! "data" = Some doc -> doc !! "id" = None ->
  (data !! "sales_starts_at" = None ->
     validate_date db od data = (Raise (KeyError "sales_starts_at"), data))
  /\ (is_Some (data !! "sales_starts_at") ->
      data !! "sales_ends_at" = None ->
      validate_date db od data = (Raise (KeyError "sales_ends_at"), data)).
Proof.
  intros Hd Hid. rewrite (validate_date_creation db od doc _ Hd Hid).
  split.
  - by intros ->.
  - by intros [s ->] ->.
Qed.

Lemma validate_date_creation_missing_date_witness :
  validate_date Sample.db {[ "data" := ∅ ]}
    {[ "sales_ends_at" := VDateTime 500 (Some 0) ]}
  = (Raise (KeyError "sales_starts_at"), {[ "sales_ends_at" := VDateTime 500 (Some 0) ]}).
Proof.
  apply (validate_date_creation_missing_date Sample.db {[ "data" := ∅ ]} ∅);
    reflexivity.
Defined.


(** X5: on a payload that holds an integer min_order, and integers under
    max_order and quantity where it holds them, [validate_quantity] passes
    exactly when min_order is at most each of the two that are there. *)
Theorem validate_quantity_accepts_iff
    (data : gmap string value) b (oa oq : option Z) :
  data !! "min_order" = Some (VInt b) ->
  data !! "max_order" = VInt <$> oa ->
  data !! "quantity" = VInt <$> oq ->
  validate_quantity data = Ok tt
  <-> (forall a, oa = Some a -> b <= a) /\ (forall q, oq = Some q -> b <= q).
Proof.
  intros Hb Ha Hq. unfold validate_quantity.
  rewrite (contains_Some _ _ _ Hb), (getitem_Some _ _ _ Hb).
  destruct oa as [a|], oq as [q|]; simpl in Ha, Hq;
    [rewrite (contains_Some _ _ _ Ha), (getitem_Some _ _ _ Ha)
    |rewrite (contains_Some _ _ _ Ha), (getitem_Some _ _ _ Ha)
    |rewrite (contains_None _ _ Ha)
    |rewrite (contains_None _ _ Ha)];
    [rewrite (contains_Some _ _ _ Hq), (getitem_Some _ _ _ Hq)
    |rewrite (contains_None _ _ Hq)
    |rewrite (contains_Some _ _ _ Hq), (getitem_Some _ _ _ Hq)
    |rewrite (contains_None _ _ Hq)];
    run; rewrite ?compare_Lt_decide;
    repeat case_bool_decide; simpl;
    (split;
     [ try done; intros _; split; intros ? Heq;
       try discriminate; injection Heq as <-; lia
     | try done; intros [Hmax Hqty];
       try specialize (Hmax _ eq_refl); try specialize (Hqty _ eq_refl);
       lia ]).
Qed.

Lemma validate_quantity_accepts_iff_witness :
  validate_quantity {[ "min_order" := VInt 2; "quantity" := VInt 2 ]} = Ok tt
  <-> (forall a, None = Some a -> 2 <= a)
      /\ (forall q, Some 2 = Some q -> 2 <= q).
Proof.
  apply (validate_quantity_accepts_iff
           {[ "min_order" := VInt 2; "quantity" := VInt 2 ]} 2 None (Some 2));
    reflexivity.
Defined.

Lemma non_negative_int n : non_negative (VInt n) = Ok (bool_decide (0 <= n)).
Proof.
  unfold non_negative, ge. simpl. run. f_equal.
  case_bool_decide; destruct (Z.compare_spec n 0); try reflexivity; lia.
Qed.

Lemma non_negative_float f :
  non_negative (VFloat f) = Ok (SFleb (S754_zero false) f).
Proof.
  unfold non_negative, ge, SFleb. simpl. run. f_equal.
  destruct f as [s|[]| |[] m e]; simpl; try reflexivity.
  - destruct (0 <=? e) eqn:He; simpl; [|reflexivity].
    assert (0 < 2 ^ e) as Hpow by (apply Z.pow_pos_nonneg; lia).
    assert (- Z.pos m * 2 ^ e < 0) as Hneg by nia.
    by rewrite (proj2 (Z.compare_lt_iff _ _) Hneg).
  - destruct (0 <=? e) eqn:He; simpl; [|reflexivity].
    assert (0 < 2 ^ e) as Hpow by (apply Z.pow_pos_nonneg; lia).
    assert (0 < Z.pos m * 2 ^ e) as Hpos by nia.
    by rewrite (proj2 (Z.compare_gt_iff _ _) Hpos).
Qed.

Lemma deserialize_validated convert f raw v accepted :
  raw <> VNone -> convert (type_ f) raw = Ok v ->
  validate f = [non_negative] -> non_negative v = Ok accepted ->
  deserialize convert f raw =
    if accepted then Ok v else Raise (ValidationError "Invalid value.").
Proof.
  intros Hraw Hv Hval Hacc.
  assert (deserialize convert f raw =
            (output ← convert (type_ f) raw;
             run_validators (validate f) output;; mret output)) as ->
    by (by destruct raw).
  rewrite Hv, Hval. run. rewrite Hacc. by destruct accepted.
Qed.

Lemma numeric_field name :
  name ∈ ["price"; "quantity"; "min_order"; "max_order"] ->
  exists f, field_named name = Some f /\ validate f = [non_negative].
Proof.
  intros Hname.
  repeat (apply elem_of_cons in Hname as [->|Hname]);
    [| | | |by apply elem_of_nil in Hname];
    by eexists.
Qed.

(** X6: a value of price, quantity, min_order or max_order that converts
    to the integer [n] is accepted, as [n], exactly when [0 <= n], and is
    refused as invalid exactly when [n < 0]. *)
Theorem numeric_fields_accept_integer_iff name convert raw n :
  name ∈ ["price"; "quantity"; "min_order"; "max_order"] ->
  raw <> VNone ->
  exists f,
    field_named name = Some f
    /\ (convert (type_ f) raw = Ok (VInt n) ->
        (deserialize convert f raw = Ok (VInt n) <-> 0 <= n)
        /\ (deserialize convert f raw =
              Raise (ValidationError "Invalid value.") <-> n < 0)).
Proof.
  intros Hname Hraw.
  destruct (numeric_field name Hname) as (f & Hf & Hval).
  exists f. split; [exact Hf|]. intros Hv.
  rewrite (deserialize_validated convert f raw _ _ Hraw Hv Hval
             (non_negative_int n)).
  case_bool_decide; split; split; intros; try done; lia.
Qed.

Lemma numeric_fields_accept_integer_iff_witness :
  exists f,
    field_named "quantity" = Some f
    /\ (deserialize Sample.convert f (VInt 12) = Ok (VInt 12) <-> 0 <= 12).
Proof.
  destruct (numeric_fields_accept_integer_iff "quantity" Sample.convert
              (VInt 12) 12) as (f & Hf & H).
  - apply list_elem_of_further, list_elem_of_here.
  - done.
  - exists f. split; [exact Hf|].
    vm_compute in Hf. injection Hf as <-. by apply H.
Defined.

(** X7: a value of one of these fields that converts to a float is
    accepted exactly when IEEE comparison puts zero at or below it: a
    negative float, minus infinity and NaN are refused; both zeros, the
    positive floats and plus infinity are accepted. *)
Theorem numeric_fields_accept_float_iff name convert raw x :
  name ∈ ["price"; "quantity"; "min_order"; "max_order"] ->
  raw <> VNone ->
  exists f,
    field_named name = Some f
    /\ (convert (type_ f) raw = Ok (VFloat x) ->
        (deserialize convert f raw = Ok (VFloat x)
         <-> SFleb (S754_zero false) x = true)
        /\ (x = S754_nan ->
            deserialize convert f raw =
              Raise (ValidationError "Invalid value."))).
Proof.
  intros Hname Hraw.
  destruct (numeric_field name Hname) as (f & Hf & Hval).
  exists f. split; [exact Hf|]. intros Hv.
  rewrite (deserialize_validated convert f raw _ _ Hraw Hv Hval
             (non_negative_float x)).
  split.
  - destruct (SFleb _ x); split; intros; done.
  - by intros ->.
Qed.

Lemma numeric_fields_accept_float_iff_witness :
  exists f,
    field_named "price" = Some f
    /\ deserialize Sample.convert f (VFloat S754_nan) =
         Raise (ValidationError "Invalid value.").
Proof.
  destruct (numeric_fields_accept_float_iff "price" Sample.convert
              (VFloat S754_nan) S754_nan) as (f & Hf & H).
  - apply list_elem_of_here.
  - done.
  - exists f. split; [exact Hf|].
    vm_compute in Hf. injection Hf as <-. by apply H.
Defined.

(** X8: position is declared nullable and without a validator: null passes
    untouched, and every other value is accepted as whatever it converts
    to, a negative integer included. *)
Theorem position_accepts_any_integer convert :
  exists f,
    field_named "position" = Some f
    /\ deserialize convert f VNone = Ok VNone
    /\ forall raw v,
         raw <> VNone -> convert (type_ f) raw = Ok v ->
         deserialize convert f raw = Ok v.
Proof.
  eexists. split; [reflexivity|]. split; [reflexivity|].
  intros raw v Hraw Hv.
  assert (forall f, deserialize convert f raw =
            (output ← convert (type_ f) raw;
             run_validators (validate f) output;; mret output)) as ->
    by (by destruct raw).
  simpl in *. by rewrite Hv.
Qed.

Lemma position_accepts_any_integer_witness :
  exists f,
    field_named "position" = Some f
    /\ deserialize Sample.convert f (VInt (-4)) = Ok (VInt (-4)).
Proof.
  destruct (position_accepts_any_integer Sample.convert) as (f & Hf & _ & H).
  exists f. split; [exact Hf|].
  vm_compute in Hf. injection Hf as <-. by apply H.
Defined.






End SchemaMore.

(** *** Further properties of the resources *)

Module ResourceMore.
Import Resources ResourceFacts.

Lemma safe_query_some {A} db (model : Model A) c col v p r :
  column model c = Some col -> r ∈ table model db -> col r = v ->
  exists r', safe_query db model c v p = Ok r'
             /\ r' ∈ table model db /\ col r' = v.
Proof.
  intros Hc Hin Hv. unfold safe_query. rewrite Hc.
  destruct (filter _ _) as [|r0 rest] eqn:Hf.
  - assert (r ∈ filter (fun r => col r = v) (table model db)) as Hr
      by (by apply list_elem_of_filter).
    rewrite Hf in Hr. by apply elem_of_nil in Hr.
  - assert (r0 ∈ filter (fun r => col r = v) (table model db)) as Hr
      by (rewrite Hf; apply list_elem_of_here).
    apply list_elem_of_filter in Hr as [Hv0 Hin0]. by exists r0.
Qed.

(** X10: [before_post] lets a payload through exactly when the
    relationship check passes and the payload names, under ['event'], an
    event the requester co-organizes. *)
Theorem before_post_passes_iff
    has_access require_relationship (data : gmap string value) :
  before_post has_access require_relationship data = Ok tt
  <-> require_relationship ["event"] data = Ok tt
      /\ exists event,
           data !! "event" = Some event
           /\ has_access "is_coorganizer" event = true.
Proof.
  unfold before_post.
  destruct (require_relationship ["event"] data) as [[]|e]; run.
  - destruct (data !! "event") as [event|] eqn:Hevent.
    + rewrite (getitem_Some _ _ _ Hevent).
      destruct (has_access "is_coorganizer" event) eqn:Hacc; simpl.
      * split; [|done]. intros _. split; [done|]. by exists event.
      * split.
        -- by destruct (getitem data "event_id").
        -- intros [_ (event' & [= <-] & Hacc')]. congruence.
    + rewrite (getitem_None _ _ Hevent). split; [done|].
      by intros [_ (event & ? & _)].
  - split; [done|]. by intros [? _].
Qed.


(** The filters of a request without a truthy ticket tag id. *)
Lemma query_filters_untagged event_query db (vk : gmap string value) :
  truthy (dict_get vk "ticket_tag_id") = false ->
  query_filters event_query db vk =
    match event_query query_Ticket vk with
    | (Raise e, vk1) => (Raise e, vk1)
    | (Ok q, vk1) =>
        if truthy (dict_get vk1 "access_code_id") then
          (v ← lift (getitem vk1 "access_code_id");
           access_code ← lift (safe_query db AccessCodeModel "id" v
                                 "access_code_id");
           mret (Filter query_Ticket
                   (access_codes_any_id (access_code_id access_code)))) vk1
        else (Ok q, vk1)
    end.
Proof.
  intros Htag. unfold query_filters. run. rewrite Htag.
  destruct (event_query query_Ticket vk) as [[q|e] vk1]; [|reflexivity].
  by destruct (truthy (dict_get vk1 "access_code_id")).
Qed.

(** The filters of a request with a non-zero ticket tag id. *)
Lemma query_filters_tagged event_query db (vk : gmap string value) n :
  vk !! "ticket_tag_id" = Some (VInt n) -> n <> 0 ->
  query_filters event_query db vk =
    match safe_query db TicketTagModel "id" (VInt n) "ticket_tag_id" with
    | Raise e => (Raise e, vk)
    | Ok ticket_tag =>
        match event_query
                (Filter (join_ticket_tags query_Ticket)
                   (ticket_tag_id_eq (tag_id ticket_tag))) vk with
        | (Raise e, vk1) => (Raise e, vk1)
        | (Ok q, vk1) =>
            if truthy (dict_get vk1 "access_code_id") then
              (v ← lift (getitem vk1 "access_code_id");
               access_code ← lift (safe_query db AccessCodeModel "id" v
                                     "access_code_id");
               mret (Filter query_Ticket
                       (access_codes_any_id (access_code_id access_code))))
                vk1
            else (Ok q, vk1)
        end
    end.
Proof.
  intros Htag Hn. unfold query_filters. run.
  rewrite (dict_get_Some _ _ _ Htag), (truthy_int n Hn).
  rewrite (getitem_Some _ _ _ Htag).
  destruct (safe_query db TicketTagModel "id" _ _) as [g|e]; [|reflexivity].
  destruct (event_query _ vk) as [[q|e] vk1]; [|reflexivity].
  by destruct (truthy (dict_get vk1 "access_code_id")).
Qed.

Lemma query_raises event_query db (vk vk1 : gmap string value) e :
  query_filters event_query db vk = (Raise e, vk1) ->
  query event_query db vk = (Raise e, vk1).
Proof. intros H. unfold query. run. by rewrite H. Qed.

(** X11: with no truthy ticket tag id in the view arguments and, after
    the event filter, no truthy access code id, order identifier or order
    id (absent, [None], 0 and the empty string all count), [query] returns
    what the event filter made of the query of all tickets. *)
Theorem query_without_filters event_query db (vk vk1 : gmap string value) q :
  truthy (dict_get vk "ticket_tag_id") = false ->
  event_query query_Ticket vk = (Ok q, vk1) ->
  truthy (dict_get vk1 "access_code_id") = false ->
  truthy (dict_get vk1 "order_identifier") = false ->
  truthy (dict_get vk1 "order_id") = false ->
  query event_query db vk = (Ok q, vk1).
Proof.
  intros Htag Hev Hcode Hident Hid.
  assert (query_filters event_query db vk = (Ok q, vk1)) as Hq
    by (by rewrite (query_filters_untagged _ _ _ Htag), Hev, Hcode).
  rewrite (query_unfold _ _ _ _ _ Hq). by apply query_order_skipped.
Qed.

Lemma query_without_filters_witness :
  query Sample.event_query Sample.db
    {[ "ticket_tag_id" := VInt 0; "order_id" := VNone ]}
  = (Ok query_Ticket, {[ "ticket_tag_id" := VInt 0; "order_id" := VNone ]}).
Proof.
  apply (query_without_filters Sample.event_query Sample.db); reflexivity.
Defined.

(** X12: a non-zero ticket tag id that names no ticket tag ends [query]
    in [ObjectNotFound] for the parameter ticket_tag_id, whatever the event
    filter is, and leaves the view arguments as they were. *)
Theorem query_unknown_ticket_tag event_query db (vk : gmap string value) n :
  vk !! "ticket_tag_id" = Some (VInt n) -> n <> 0 ->
  (forall g, g ∈ ticket_tags db -> tag_id g <> n) ->
  exists d,
    query event_query db vk = (Raise (ObjectNotFound "ticket_tag_id" d), vk).
Proof.
  intros Htag Hn Hnone. eexists. apply query_raises.
  rewrite (query_filters_tagged _ _ _ n Htag Hn).
  rewrite (safe_query_missing db TicketTagModel "id" _ eq_refl); [done|].
  intros g Hin Hg. simpl in Hg. apply (Hnone g Hin). congruence.
Qed.

Lemma query_unknown_ticket_tag_witness :
  exists d,
    query Sample.event_query Sample.db {[ "ticket_tag_id" := VInt 5 ]}
    = (Raise (ObjectNotFound "ticket_tag_id" d),
       {[ "ticket_tag_id" := VInt 5 ]}).
Proof.
  apply (query_unknown_ticket_tag Sample.event_query Sample.db
           {[ "ticket_tag_id" := VInt 5 ]} 5); [reflexivity|done|].
  intros g Hin. apply list_elem_of_singleton in Hin as ->. discriminate.
Defined.

(** X13: for a request without a ticket tag, a non-zero access code id
    that names no access code ends [query] in [ObjectNotFound] for the
    parameter access_code_id. *)
Theorem query_unknown_access_code
    event_query db (vk vk1 : gmap string value) q n :
  truthy (dict_get vk "ticket_tag_id") = false ->
  event_query query_Ticket vk = (Ok q, vk1) ->
  vk1 !! "access_code_id" = Some (VInt n) -> n <> 0 ->
  (forall c, c ∈ access_code_rows db -> access_code_id c <> n) ->
  exists d,
    query event_query db vk = (Raise (ObjectNotFound "access_code_id" d), vk1).
Proof.
  intros Htag Hev Hcode Hn Hnone. eexists. apply query_raises.
  rewrite (query_filters_untagged _ _ _ Htag), Hev.
  rewrite (dict_get_Some _ _ _ Hcode), (truthy_int n Hn).
  unfold mbind, M_bind, lift. rewrite (getitem_Some _ _ _ Hcode).
  rewrite (safe_query_missing db AccessCodeModel "id" _ eq_refl); [done|].
  intros c Hin Hc. simpl in Hc. apply (Hnone c Hin). congruence.
Qed.

Lemma query_unknown_access_code_witness :
  exists d,
    query Sample.event_query Sample.db {[ "access_code_id" := VInt 4 ]}
    = (Raise (ObjectNotFound "access_code_id" d),
       {[ "access_code_id" := VInt 4 ]}).
Proof.
  apply (query_unknown_access_code Sample.event_query Sample.db
           {[ "access_code_id" := VInt 4 ]} {[ "access_code_id" := VInt 4 ]}
           query_Ticket 4); [reflexivity|reflexivity|reflexivity|done|].
  intros c Hin. apply list_elem_of_singleton in Hin as ->. discriminate.
Defined.


Lemma elem_of_all_Filter db q c t :
  t ∈ all db (Filter q c)
  <-> exists j, (t, j) ∈ rows db q /\ holds db c (t, j) = true.
Proof.
  unfold all. simpl. rewrite list_elem_of_fmap. split.
  - intros ([t' j] & -> & Hr). apply list_elem_of_filter in Hr as [Hh Hr].
    by exists j.
  - intros (j & Hr & Hh). exists (t, j). split; [done|].
    by apply list_elem_of_filter.
Qed.

Lemma elem_of_rows_query_Ticket db t j :
  (t, j) ∈ rows db query_Ticket <-> t ∈ tickets db /\ j = None.
Proof.
  simpl. rewrite list_elem_of_fmap. split.
  - by intros (t' & [= -> ->] & Hin).
  - intros [Hin ->]. by exists t.
Qed.

Lemma elem_of_all_access_code db n t :
  t ∈ all db (Filter query_Ticket (access_codes_any_id n))
  <-> t ∈ tickets db /\ n ∈ access_codes t.
Proof.
  rewrite elem_of_all_Filter. split.
  - intros (j & Hr & Hh). apply elem_of_rows_query_Ticket in Hr as [Hin _].
    simpl in Hh. by apply bool_decide_eq_true in Hh.
  - intros [Hin Hn]. exists None. split.
    + by apply elem_of_rows_query_Ticket.
    + simpl. by apply bool_decide_eq_true.
Qed.

Lemma elem_of_all_tag db n t :
  t ∈ all db (Filter (join_ticket_tags query_Ticket) (ticket_tag_id_eq n))
  <-> t ∈ tickets db
      /\ exists j, j ∈ ticket_tags_table db
                   /\ tt_ticket_id j = id t /\ ticket_tag_id j = n.
Proof.
  rewrite elem_of_all_Filter. split.
  - intros (oj & Hr & Hh). simpl in Hr.
    apply list_elem_of_bind in Hr as ([t' o'] & Hj & Hr').
    apply elem_of_rows_query_Ticket in Hr' as [Hin ->].
    apply list_elem_of_fmap in Hj as (j & [= -> ->] & Hj).
    apply list_elem_of_filter in Hj as [Hjt Hj].
    simpl in Hh. apply bool_decide_eq_true in Hh.
    split; [done|]. by exists j.
  - intros (Hin & j & Hj & Hjt & Hjn). exists (Some j). split.
    + simpl. apply list_elem_of_bind. exists (t, None). split.
      * apply list_elem_of_fmap. exists j. split; [done|].
        by apply list_elem_of_filter.
      * by apply elem_of_rows_query_Ticket.
    + simpl. by apply bool_decide_eq_true.
Qed.

(** X14: for a request that carries a non-zero ticket tag id naming a
    ticket tag and nothing else that filters, [query] returns the tag join
    and filter, and that query selects exactly the tickets that a row of
    the association table links to the tag. *)
Theorem query_by_ticket_tag event_query db (vk : gmap string value) n g :
  vk !! "ticket_tag_id" = Some (VInt n) -> n <> 0 ->
  g ∈ ticket_tags db -> tag_id g = n ->
  (forall q, event_query q vk = (Ok q, vk)) ->
  truthy (dict_get vk "access_code_id") = false ->
  truthy (dict_get vk "order_identifier") = false ->
  truthy (dict_get vk "order_id") = false ->
  query event_query db vk =
    (Ok (Filter (join_ticket_tags query_Ticket) (ticket_tag_id_eq n)), vk)
  /\ forall t,
       t ∈ all db (Filter (join_ticket_tags query_Ticket) (ticket_tag_id_eq n))
       <-> t ∈ tickets db
           /\ exists j, j ∈ ticket_tags_table db
                        /\ tt_ticket_id j = id t /\ ticket_tag_id j = n.
Proof.
  intros Htag Hn Hin Hg Hev Hcode Hident Hid.
  split; [|intros t; apply elem_of_all_tag].
  destruct (safe_query_some db TicketTagModel "id" _ (VInt n) "ticket_tag_id"
              g eq_refl Hin) as (g' & Hsq & _ & Hg').
  { simpl. by rewrite Hg. }
  simpl in Hg'. injection Hg' as Hg'.
  assert (query_filters event_query db vk =
            (Ok (Filter (join_ticket_tags query_Ticket) (ticket_tag_id_eq n)),
             vk)) as Hq.
  { rewrite (query_filters_tagged _ _ _ n Htag Hn), Hsq, Hev, Hcode.
    by rewrite Hg'. }
  rewrite (query_unfold _ _ _ _ _ Hq). by apply query_order_skipped.
Qed.

Lemma query_by_ticket_tag_witness :
  query Sample.event_query Sample.db {[ "ticket_tag_id" := VInt 1 ]} =
    (Ok (Filter (join_ticket_tags query_Ticket) (ticket_tag_id_eq 1)),
     {[ "ticket_tag_id" := VInt 1 ]}).
Proof.
  apply (query_by_ticket_tag Sample.event_query Sample.db
           {[ "ticket_tag_id" := VInt 1 ]} 1 {| tag_id := 1 |});
    try reflexivity; try done.
  apply list_elem_of_here.
Defined.

(** X15: when the filters end with a non-zero access code id in the view
    arguments and no order is asked for, [query] returns a query that
    selects exactly the tickets whose access codes include that id. *)
Theorem query_by_access_code event_query db (vk vk1 : gmap string value) q n :
  query_filters event_query db vk = (Ok q, vk1) ->
  vk1 !! "access_code_id" = Some (VInt n) -> n <> 0 ->
  truthy (dict_get vk1 "order_identifier") = false ->
  truthy (dict_get vk1 "order_id") = false ->
  query event_query db vk = (Ok q, vk1)
  /\ forall t, t ∈ all db q <-> t ∈ tickets db /\ n ∈ access_codes t.
Proof.
  intros Hq Hcode Hn Hident Hid. split.
  - rewrite (query_unfold _ _ _ _ _ Hq). by apply query_order_skipped.
  - intros t.
    rewrite (query_filters_access_code_alone _ _ _ _ _ _ Hq Hcode Hn).
    apply elem_of_all_access_code.
Qed.

Lemma query_by_access_code_witness :
  query Sample.event_query Sample.db {[ "access_code_id" := VInt 1 ]} =
    (Ok (Filter query_Ticket (access_codes_any_id 1)),
     {[ "access_code_id" := VInt 1 ]})
  /\ forall t,
       t ∈ all Sample.db (Filter query_Ticket (access_codes_any_id 1))
       <-> t ∈ tickets Sample.db /\ 1 ∈ access_codes t.
Proof.
  apply (query_by_access_code Sample.event_query Sample.db
           {[ "access_code_id" := VInt 1 ]} {[ "access_code_id" := VInt 1 ]}
           (Filter query_Ticket (access_codes_any_id 1)) 1);
    try reflexivity; done.
Defined.

(** X16: the order branch composes with the access-code branch: with a
    non-zero access code id and a non-zero order id naming an order, the
    query returned selects exactly the tickets that are linked to the
    access code and whose id is among the ids of the order's tickets. *)
Theorem query_by_access_code_and_order
    event_query db (vk vk1 : gmap string value) q n m o :
  query_filters event_query db vk = (Ok q, vk1) ->
  vk1 !! "access_code_id" = Some (VInt n) -> n <> 0 ->
  truthy (dict_get vk1 "order_identifier") = false ->
  vk1 !! "order_id" = Some (VInt m) -> m <> 0 ->
  o ∈ orders db -> order_id o = m ->
  (forall o', o' ∈ orders db -> order_id o' = m -> o' = o) ->
  exists q',
    query event_query db vk = (Ok q', vk1)
    /\ forall t,
         t ∈ all db q'
         <-> t ∈ tickets db /\ n ∈ access_codes t
             /\ id t ∈ id <$> order_tickets o.
Proof.
  intros Hq Hcode Hn Hident Hid Hm Hin Ho Hunique.
  exists (Filter q (id_in (id <$> order_tickets o))). split.
  - rewrite (query_unfold _ _ _ _ _ Hq).
    rewrite (query_order_by_id _ _ _ m Hident Hid Hm).
    unfold mbind, M_bind, lift.
    rewrite (safe_query_found db OrderModel "id" _ eq_refl (VInt m) _ o);
      [reflexivity|done|simpl; by rewrite Ho|].
    intros o' Hin' Ho'. simpl in Ho'. apply Hunique; [exact Hin'|congruence].
  - intros t. rewrite all_Filter_id_in, list_elem_of_filter.
    rewrite (query_filters_access_code_alone _ _ _ _ _ _ Hq Hcode Hn).
    rewrite elem_of_all_access_code. tauto.
Qed.

Lemma query_by_access_code_and_order_witness :
  exists q',
    query Sample.event_query Sample.db
      {[ "access_code_id" := VInt 1; "order_id" := VInt 7 ]}
    = (Ok q', {[ "access_code_id" := VInt 1; "order_id" := VInt 7 ]})
    /\ forall t,
         t ∈ all Sample.db q'
         <-> t ∈ tickets Sample.db /\ 1 ∈ access_codes t
             /\ id t ∈ id <$> order_tickets Sample.order7.
Proof.
  apply (query_by_access_code_and_order Sample.event_query Sample.db
           {[ "access_code_id" := VInt 1; "order_id" := VInt 7 ]}
           {[ "access_code_id" := VInt 1; "order_id" := VInt 7 ]}
           (Filter query_Ticket (access_codes_any_id 1)) 1 7 Sample.order7);
    try reflexivity; try done.
  - apply list_elem_of_further, list_elem_of_here.
  - intros o' Hin Ho'.
    apply elem_of_cons in Hin as [->|Hin]; [discriminate|].
    by apply list_elem_of_singleton in Hin.
Defined.


Lemma query_order_state db q (vk : gmap string value) k :
  k <> "order_id" -> snd (query_order db q vk) !! k = vk !! k.
Proof.
  intros Hk. unfold query_order. run.
  destruct (truthy (dict_get vk "order_identifier")).
  - destruct (getitem vk "order_identifier") as [v|]; [|reflexivity].
    destruct (safe_query db OrderModel "identifer" v _) as [o|]; [|reflexivity].
    destruct (truthy (dict_get (<["order_id" := _]> vk) "order_id")); simpl.
    + destruct (getitem _ "order_id") as [v'|]; simpl;
        [|by rewrite lookup_insert_ne].
      destruct (safe_query db OrderModel "id" v' _); simpl;
        by rewrite lookup_insert_ne.
    + by rewrite lookup_insert_ne.
  - destruct (truthy (dict_get vk "order_id")); [|reflexivity].
    destruct (getitem vk "order_id") as [v'|]; [|reflexivity].
    by destruct (safe_query db OrderModel "id" v' _).
Qed.

(** X17: after the event filter has run, [query] writes to no key of the
    view arguments but ['order_id'], whether it returns or raises. *)
Theorem query_writes_order_id_only
    event_query db (vk vk1 : gmap string value) r k :
  query_filters event_query db vk = (r, vk1) ->
  k <> "order_id" ->
  snd (query event_query db vk) !! k = vk1 !! k.
Proof.
  intros Hq Hk. destruct r as [q|e].
  - rewrite (query_unfold _ _ _ _ _ Hq). by apply query_order_state.
  - by rewrite (query_raises _ _ _ _ _ Hq).
Qed.

Lemma query_writes_order_id_only_witness :
  snd (query Sample.event_query Sample.db
         {[ "order_identifier" := VStr "seventh"; "page" := VInt 2 ]})
    !! "page" = Some (VInt 2).
Proof.
  rewrite (query_writes_order_id_only Sample.event_query Sample.db
             {[ "order_identifier" := VStr "seventh"; "page" := VInt 2 ]}
             {[ "order_identifier" := VStr "seventh"; "page" := VInt 2 ]}
             (Ok query_Ticket) "page"); [reflexivity|reflexivity|done].
Defined.

(** X18: an order that has no tickets empties the result: with a non-zero
    order id naming such an order, the query returned selects nothing,
    whatever the filters before it had selected. *)
Theorem query_order_without_tickets
    event_query db (vk vk1 : gmap string value) q n o :
  query_filters event_query db vk = (Ok q, vk1) ->
  truthy (dict_get vk1 "order_identifier") = false ->
  vk1 !! "order_id" = Some (VInt n) -> n <> 0 ->
  o ∈ orders db -> order_id o = n ->
  (forall o', o' ∈ orders db -> order_id o' = n -> o' = o) ->
  order_tickets o = [] ->
  exists q', query event_query db vk = (Ok q', vk1) /\ all db q' = [].
Proof.
  intros Hq Hident Hid Hn Hin Ho Hunique Hempty.
  exists (Filter q (id_in [])). split.
  - rewrite (query_unfold _ _ _ _ _ Hq).
    rewrite (query_order_by_id _ _ _ n Hident Hid Hn).
    unfold mbind, M_bind, lift.
    rewrite (safe_query_found db OrderModel "id" _ eq_refl (VInt n) _ o);
      [by rewrite Hempty|done|simpl; by rewrite Ho|].
    intros o' Hin' Ho'. simpl in Ho'. apply Hunique; [exact Hin'|congruence].
  - rewrite all_Filter_id_in.
    induction (all db q) as [|t l IH]; [reflexivity|].
    rewrite filter_cons. destruct (decide (id t ∈ [])) as [Hnil|_]; [|exact IH].
    by apply elem_of_nil in Hnil.
Qed.

Lemma query_order_without_tickets_witness :
  let db :=
    {| tickets := [Sample.t1]; ticket_tags := []; ticket_tags_table := [];
       access_code_rows := [];
       orders := [ {| order_id := 3; identifer := "third";
                      order_tickets := [] |} ];
       ticket_holders := [] |} in
  exists q',
    query Sample.event_query db {[ "order_id" := VInt 3 ]}
    = (Ok q', {[ "order_id" := VInt 3 ]})
    /\ all db q' = [].
Proof.
  intros db.
  apply (query_order_without_tickets Sample.event_query db
           {[ "order_id" := VInt 3 ]} {[ "order_id" := VInt 3 ]}
           query_Ticket 3
           {| order_id := 3; identifer := "third"; order_tickets := [] |});
    try reflexivity; try done.
  - apply list_elem_of_here.
  - intros o' Hin _. by apply list_elem_of_singleton in Hin.
Defined.

(** X21: a non-empty order identifier decides the order: the outcome of
    the order branches is the same whatever ['order_id'] the view arguments
    held before, since the id found through the identifier is written over
    it. *)
Theorem order_identifier_overrides_order_id
    db q (vk : gmap string value) s x :
  vk !! "order_identifier" = Some (VStr s) -> s <> EmptyString ->
  fst (query_order db q (<["order_id" := x]> vk)) = fst (query_order db q vk).
Proof.
  intros Hident Hs.
  assert (<["order_id" := x]> vk !! "order_identifier" = Some (VStr s))
    as Hident' by (by rewrite lookup_insert_ne).
  rewrite (query_order_by_identifier db q _ s Hident' Hs).
  rewrite (query_order_by_identifier db q _ s Hident Hs).
  destruct (safe_query db OrderModel "identifer" _ _) as [o|e]; [|reflexivity].
  rewrite insert_insert_eq.
  destruct (truthy (VInt (order_id o))); [|reflexivity].
  unfold mbind, M_bind, lift.
  by destruct (safe_query db OrderModel "id" _ _).
Qed.

Lemma order_identifier_overrides_order_id_witness :
  fst (query_order Sample.db query_Ticket
         (<["order_id" := VInt 0]> {[ "order_identifier" := VStr "seventh" ]}))
  = fst (query_order Sample.db query_Ticket
           {[ "order_identifier" := VStr "seventh" ]}).
Proof.
  apply (order_identifier_overrides_order_id Sample.db query_Ticket
           {[ "order_identifier" := VStr "seventh" ]} "seventh" (VInt 0));
    [reflexivity|done].
Defined.

(** X19: [before_get_object] run again on the view arguments it left
    behind gives the same outcome and leaves them as they are. *)
Theorem before_get_object_idempotent db (vk : gmap string value) :
  before_get_object db (snd (before_get_object db vk)) =
    before_get_object db vk.
Proof.
  unfold before_get_object. run.
  destruct (bool_decide (dict_get vk "attendee_id" = VNone)) eqn:Hnone; simpl.
  - by rewrite Hnone.
  - destruct (vk !! "attendee_id") as [v|] eqn:Hv.
    + rewrite (getitem_Some _ _ _ Hv).
      destruct (safe_query db TicketHolderModel "id" v "attendee_id")
        as [h|e] eqn:Hh; simpl.
      * assert (forall y, dict_get (<["id" := y]> vk) "attendee_id"
                          = dict_get vk "attendee_id") as Hget
          by (intros y; unfold dict_get; by rewrite lookup_insert_ne).
        assert (forall y, getitem (<["id" := y]> vk) "attendee_id" = Ok v)
          as Hitem
          by (intros y; apply getitem_Some; by rewrite lookup_insert_ne).
        destruct (bool_decide (ticket_id h = VNone)) eqn:Ht; simpl;
          rewrite Hget, Hnone, Hitem, Hh; simpl; rewrite Ht; simpl;
          by rewrite insert_insert_eq.
      * by rewrite Hnone, (getitem_Some _ _ _ Hv), Hh.
    + apply bool_decide_eq_false in Hnone. unfold dict_get in Hnone.
      by rewrite Hv in Hnone.
Qed.

(** X20: [before_get_object] writes to no key of the view arguments but
    ['id'], and without an attendee id (absent or [None]) it returns
    without touching them at all. *)
Theorem before_get_object_writes_id_only db (vk : gmap string value) :
  (forall k, k <> "id" -> snd (before_get_object db vk) !! k = vk !! k)
  /\ (dict_get vk "attendee_id" = VNone ->
      before_get_object db vk = (Ok tt, vk)).
Proof.
  unfold before_get_object. run. split.
  - intros k Hk.
    destruct (bool_decide (dict_get vk "attendee_id" = VNone)); [done|]. simpl.
    destruct (getitem vk "attendee_id") as [v|]; [|done].
    destruct (safe_query db TicketHolderModel "id" v "attendee_id") as [h|];
      [|done].
    destruct (bool_decide (ticket_id h = VNone)); simpl;
      by rewrite lookup_insert_ne.
  - intros Hnone. by rewrite (bool_decide_eq_true_2 _ Hnone).
Qed.

Lemma before_get_object_writes_id_only_witness :
  before_get_object Sample.db {[ "id" := VInt 1 ]} = (Ok tt, {[ "id" := VInt 1 ]}).
Proof.
  apply (proj2 (before_get_object_writes_id_only Sample.db {[ "id" := VInt 1 ]})).
  reflexivity.
Defined.

(** X22: the [check] of the list decorator never raises, and its answer is
    truthy exactly when the view arguments hold a truthy event id or a
    truthy event identifier; it is the event id when that is truthy. *)
Theorem TicketList_check_truthy_iff (a : gmap string value) :
  (truthy (TicketList_check a) = true
   <-> (exists v, a !! "event_id" = Some v /\ truthy v = true)
       \/ (exists v, a !! "event_identifier" = Some v /\ truthy v = true))
  /\ (forall v, a !! "event_id" = Some v -> truthy v = true ->
        TicketList_check a = v).
Proof.
  unfold TicketList_check, dict_get. split.
  - destruct (a !! "event_id") as [v|]; simpl.
    + destruct (truthy v) eqn:Hv.
      * split; [|done]. intros _. left. by exists v.
      * destruct (a !! "event_identifier") as [w|]; simpl.
        -- split.
           ++ intros Hw. right. by exists w.
           ++ intros [(v' & [= <-] & Hv')|(w' & [= <-] & Hw')]; congruence.
        -- split; [done|].
           intros [(v' & [= <-] & Hv')|(w' & ? & _)]; congruence.
    + destruct (a !! "event_identifier") as [w|]; simpl.
      * split.
        -- intros Hw. right. by exists w.
        -- by intros [(v' & ? & _)|(w' & [= <-] & Hw')].
      * split; [done|]. by intros [(v' & ? & _)|(w' & ? & _)].
  - intros v -> Hv. simpl. by rewrite Hv.
Qed.


Lemma TicketList_check_truthy_iff_witness :
  TicketList_check {[ "event_id" := VInt 3; "event_identifier" := VStr "e" ]}
  = VInt 3.
Proof.
  apply (proj2 (TicketList_check_truthy_iff
                  {[ "event_id" := VInt 3; "event_identifier" := VStr "e" ]}));
    reflexivity.
Defined.

End ResourceMore.
